(** * Nautobot node-label controller: reconcile procedure and inventory client

    A shallow embedding of the two controller programs of the repository,
    [src/main.go] (short-circuit, guarded label update, tiered requeue) and
    [src/unnamed/part_001] (the plain variant), together with the properties
    of the label policy, the reconcile outcome and the inventory lookup.

    Go strings are byte sequences and are modelled by [string]; a label map
    [map[string]string] is a [gmap string string], wrapped in [option] because
    the code distinguishes the nil map; [time.Duration] is an integer number
    of nanoseconds.  The collaborators that are not code of the repository
    (the API server client, [net/http], [encoding/json]) are the fields of a
    [World]; every call that reaches one of them is recorded in a trace. *)

From stdpp Require Import gmap strings list.
From Stdlib Require Import ZArith String Ascii Lia.

Local Open Scope Z_scope.
Local Open Scope string_scope.

(** ** Errors *)

(** Go [error] values.  [ApiNotFound] and [ApiError] are produced by the
    collaborators; [Errorf] is [fmt.Errorf] with its format string and its
    single argument ([%w] wraps an error, [%d] an integer, [%s] a string). *)
Inductive error : Type :=
| ApiNotFound
| ApiError (msg : string)
| Errorf (format : string) (a : fmtArg)
with fmtArg : Type :=
| ArgW (e : error)
| ArgD (n : Z)
| ArgS (s : string).

(** A Go result pair [(v, err)] with exactly one side meaningful. *)
Inductive res (A : Type) : Type :=
| Ok (a : A)
| Fail (e : error).
Arguments Ok {A} a.
Arguments Fail {A} e.

(** [apierrors.IsNotFound] and [client.IgnoreNotFound]. *)
Definition IsNotFound (e : error) : bool :=
  match e with ApiNotFound => true | _ => false end.

Definition IgnoreNotFound (e : error) : option error :=
  if IsNotFound e then None else Some e.

(** ** Data *)

(** [NautobotDeviceData]. *)
Record NautobotDeviceData : Type := mkDeviceData {
  SiteName : string;
  RackName : string
}.

(** One [site] or [rack] object of the response envelope. *)
Record namedRef : Type := mkNamedRef {
  Display : string;
  Name : string
}.

Record deviceResult : Type := mkDeviceResult {
  Site : namedRef;
  Rack : namedRef
}.

(** [deviceResponse]. *)
Record deviceResponse : Type := mkDeviceResponse {
  Results : list deviceResult
}.

(** [NautobotClient]; its [httpClient] is the [Do] field of the [World]. *)
Record NautobotClient : Type := mkNautobotClient {
  baseURL : string;
  authToken : string
}.

(** The part of [http.Request] and [http.Response] the program touches. *)
Record Request : Type := mkRequest {
  Method : string;
  URL : string;
  Header : gmap string string
}.

Record Response : Type := mkResponse {
  StatusCode : Z;
  Body : string
}.

(** The part of [corev1.Node] the program touches.  [Labels = None] is the
    nil map. *)
Record Node : Type := mkNode {
  NodeName : string;
  Labels : option (gmap string string)
}.

(** [ctrl.Request] (nodes are cluster scoped: the name is the key) and
    [ctrl.Result]. *)
Record ctrlRequest : Type := mkCtrlRequest {
  ReqName : string
}.

Record Result : Type := mkResult {
  RequeueAfter : Z
}.

(** [time.Minute] and [time.Hour], in nanoseconds. *)
Definition Second : Z := 1000000000.
Definition Minute : Z := 60 * Second.
Definition Hour : Z := 60 * Minute.

Definition zoneKey : string := "topology.kubernetes.io/zone".
Definition rackKey : string := "topology.kubernetes.io/rack".

(** ** Collaborators and trace *)

Record World : Type := mkWorld {
  (** [r.Get(ctx, req.NamespacedName, &node)] *)
  Get : string -> res Node;
  (** [r.Update(ctx, &node)]: [None] is a nil error *)
  Update : Node -> option error;
  (** the validation done by [http.NewRequest] on its URL *)
  ParseURL : string -> option error;
  (** [c.httpClient.Do(req)] *)
  Do : Request -> res Response;
  (** [json.NewDecoder(resp.Body).Decode(&deviceResponse)] *)
  Decode : string -> res deviceResponse
}.

Inductive Event : Type :=
| EvGet (name : string)
| EvHttpDo (req : Request)
| EvReadBody (body : string)
| EvUpdate (node : Node) (outcome : option error)
| EvLogInfo (msg : string)
| EvLogError (e : error) (msg : string).

(** Computations that append to the trace. *)
Definition M (A : Type) : Type := (list Event * A)%type.

Definition ret {A} (a : A) : M A := ([], a).

Definition bind {A B} (m : M A) (k : A -> M B) : M B :=
  let '(t1, a) := m in
  let '(t2, b) := k a in
  ((t1 ++ t2)%list, b).

Definition emit (e : Event) : M unit := ([e], tt).

Notation "m ;;; k" := (bind m (fun _ => k))
  (at level 100, k at level 200, right associativity).

(** ** Go library functions used by the program *)

(** [strings.Index(s, substr)]: the byte index of the first occurrence, or
    [-1]. *)
Definition strings_Index (s substr : string) : Z :=
  match String.index 0 substr s with
  | Some i => Z.of_nat i
  | None => -1
  end.

(** The slice expression [s[:i]]. *)
Definition slice_to (s : string) (i : Z) : string :=
  String.substring 0 (Z.to_nat i) s.

(** A Go map read [m[k]]: the zero value when the key is absent. *)
Definition getLabel (m : gmap string string) (k : string) : string :=
  default "" (m !! k).

(** [http.NewRequest(method, url, nil)]. *)
Definition NewRequest (w : World) (method url : string) : res Request :=
  match ParseURL w url with
  | Some err => Fail err
  | None => Ok (mkRequest method url ∅)
  end.

(** [req.Header.Set(k, v)]. *)
Definition HeaderSet (k v : string) (req : Request) : Request :=
  mkRequest (Method req) (URL req) (<[k := v]> (Header req)).

(** The fallback of an empty [name] to [display]. *)
Definition nameOrDisplay (r : namedRef) : string :=
  if String.eqb (Name r) "" then Display r else Name r.

(** Lines 88-112 of [GetDeviceData], shared verbatim by both programs:
    decode the body, fail on an empty result list, extract the two names. *)
Definition decodeDevice (w : World) (nodeName : string) (resp : Response)
  : M (res NautobotDeviceData) :=
  emit (EvReadBody (Body resp)) ;;;
  match Decode w (Body resp) with
  | Fail err => ret (Fail (Errorf "failed to parse Nautobot response: %w" (ArgW err)))
  | Ok deviceResponse =>
    match Results deviceResponse with
    | [] => ret (Fail (Errorf "no device found in Nautobot for node: %s" (ArgS nodeName)))
    | r0 :: _ =>
      let siteName := nameOrDisplay (Site r0) in
      let rackName := nameOrDisplay (Rack r0) in
      ret (Ok (mkDeviceData siteName rackName))
    end
  end.

(** The error of line 85, [fmt.Errorf("Nautobot returned non-200 status: %d",
    resp.StatusCode)]. *)
Definition statusError (code : Z) : error :=
  Errorf "Nautobot returned non-200 status: %d" (ArgD code).

(** Lines 69-86 of [GetDeviceData] (61-78 in the plain variant): build the
    request for the lookup key, send it, check the status. *)
Definition queryDevice (w : World) (c : NautobotClient) (key nodeName : string)
  : M (res NautobotDeviceData) :=
  let url := baseURL c +:+ "/api/dcim/devices/?name=" +:+ key in
  match NewRequest w "GET" url with
  | Fail err => ret (Fail (Errorf "failed to create request to Nautobot: %w" (ArgW err)))
  | Ok req =>
    let req := HeaderSet "Authorization" ("Token " +:+ authToken c) req in
    let req := HeaderSet "Content-Type" "application/json" req in
    emit (EvHttpDo req) ;;;
    match Do w req with
    | Fail err => ret (Fail (Errorf "failed to contact Nautobot: %w" (ArgW err)))
    | Ok resp =>
      if negb (Z.eqb (StatusCode resp) 200) then
        ret (Fail (statusError (StatusCode resp)))
      else decodeDevice w nodeName resp
    end
  end.

(** The label map during step 3 of [Reconcile]: the map, the local variable
    [updated], and the assignments [node.Labels[k] = v] executed so far. *)
Record LabelState : Type := mkLabelState {
  labels : gmap string string;
  updated : bool;
  assigned : list (string * string)
}.

(** [if node.Labels == nil { node.Labels = map[string]string{} }] after
    [updated := false]. *)
Definition initLabels (l : option (gmap string string)) : LabelState :=
  mkLabelState (default ∅ l) false [].

(** [node.Labels[k] = v; updated = true]. *)
Definition assign (k v : string) (s : LabelState) : LabelState :=
  mkLabelState (<[k := v]> (labels s)) true (assigned s ++ [(k, v)])%list.

(** The successful updates of a trace, oldest first, and the label map the
    object store holds after them. *)
Definition writes (t : list Event) : list Node :=
  omap (fun e => match e with EvUpdate n _ => Some n | _ => None end) t.

Definition lookups (t : list Event) : list Request :=
  omap (fun e => match e with EvHttpDo r => Some r | _ => None end) t.

Definition bodyReads (t : list Event) : list string :=
  omap (fun e => match e with EvReadBody b => Some b | _ => None end) t.

Definition loggedErrors (t : list Event) : list error :=
  omap (fun e => match e with EvLogError err _ => Some err | _ => None end) t.

Definition persisted (before : option (gmap string string)) (t : list Event)
  : option (gmap string string) :=
  foldl (fun cur e =>
           match e with
           | EvUpdate n None => Labels n
           | _ => cur
           end) before t.

(** The [updated] field of the outcome: the invocation changed the object
    store, that is, it submitted an update that was accepted. *)
Definition outcomeUpdated (t : list Event) : bool :=
  existsb (fun e => match e with EvUpdate _ None => true | _ => false end) t.

(** A Go two-value map read [v, ok := m[k]]. *)
Definition getLabelOk (m : gmap string string) (k : string) : string * bool :=
  match m !! k with
  | Some v => (v, true)
  | None => ("", false)
  end.

(** [NodeReconciler]; its embedded [client.Client] is the [Get] and [Update]
    fields of the [World]. *)
Record NodeReconciler : Type := mkNodeReconciler {
  Nautobot : NautobotClient
}.

(** ** The program of [src/main.go] *)

Module Main.

(** Lines 62-65: the lookup key [hostname] derived from [nodeName]. *)
Definition hostname (nodeName : string) : string :=
  let dotIndex := strings_Index nodeName "." in
  if (dotIndex >? 0)%Z then slice_to nodeName dotIndex else nodeName.

Definition GetDeviceData (w : World) (c : NautobotClient) (nodeName : string)
  : M (res NautobotDeviceData) :=
  queryDevice w c (hostname nodeName) nodeName.

Definition hasAllLabels (node : Node) : bool :=
  match Labels node with
  | None => false
  | Some m =>
    let '(zone, hasZone) := getLabelOk m zoneKey in
    let '(rack, hasRack) := getLabelOk m rackKey in
    hasZone && hasRack && negb (String.eqb zone "") && negb (String.eqb rack "")
  end.

(** Lines 150-165 of [Reconcile]: the guarded label update. *)
Definition updateLabels (l : option (gmap string string)) (deviceData : NautobotDeviceData)
  : LabelState :=
  let s := initLabels l in
  let s :=
    if negb (String.eqb (SiteName deviceData) "")
       && negb (String.eqb (getLabel (labels s) zoneKey) (SiteName deviceData))
    then assign zoneKey (SiteName deviceData) s else s in
  let s :=
    if negb (String.eqb (RackName deviceData) "")
       && negb (String.eqb (getLabel (labels s) rackKey) (RackName deviceData))
    then assign rackKey (RackName deviceData) s else s in
  s.

Definition Reconcile (w : World) (r : NodeReconciler) (req : ctrlRequest)
  : M (Result * option error) :=
  emit (EvLogInfo "Reconciling Node") ;;;
  emit (EvGet (ReqName req)) ;;;
  match Get w (ReqName req) with
  | Fail err => ret (mkResult 0, IgnoreNotFound err)
  | Ok node =>
    if hasAllLabels node then
      emit (EvLogInfo "Node already has all required labels") ;;;
      ret (mkResult (12 * Hour), None)
    else
      bind (GetDeviceData w (Nautobot r) (NodeName node)) (fun looked =>
      match looked with
      | Fail err =>
        emit (EvLogError err "Failed to get device data from Nautobot") ;;;
        ret (mkResult (5 * Minute), None)
      | Ok deviceData =>
        let s := updateLabels (Labels node) deviceData in
        let node := mkNode (NodeName node) (Some (labels s)) in
        if updated s then
          emit (EvLogInfo "Updating node labels") ;;;
          let outcome := Update w node in
          emit (EvUpdate node outcome) ;;;
          match outcome with
          | Some err =>
            emit (EvLogError err "Failed to update node labels") ;;;
            ret (mkResult (1 * Minute), Some err)
          | None => ret (mkResult (1 * Hour), None)
          end
        else
          emit (EvLogInfo "No label updates needed") ;;;
          ret (mkResult (6 * Hour), None)
      end)
  end.

End Main.

(** ** The program of [src/unnamed/part_001] *)

Module Plain.

(** The node name is the lookup key as it is. *)
Definition GetDeviceData (w : World) (c : NautobotClient) (nodeName : string)
  : M (res NautobotDeviceData) :=
  queryDevice w c nodeName nodeName.

(** Lines 135-150 of [Reconcile]: the label update, without guards. *)
Definition updateLabels (l : option (gmap string string)) (deviceData : NautobotDeviceData)
  : LabelState :=
  let s := initLabels l in
  let s :=
    if negb (String.eqb (getLabel (labels s) zoneKey) (SiteName deviceData))
    then assign zoneKey (SiteName deviceData) s else s in
  let s :=
    if negb (String.eqb (getLabel (labels s) rackKey) (RackName deviceData))
    then assign rackKey (RackName deviceData) s else s in
  s.

Definition Reconcile (w : World) (r : NodeReconciler) (req : ctrlRequest)
  : M (Result * option error) :=
  emit (EvGet (ReqName req)) ;;;
  match Get w (ReqName req) with
  | Fail err => ret (mkResult 0, IgnoreNotFound err)
  | Ok node =>
    emit (EvLogInfo "Reconciling Node") ;;;
    bind (GetDeviceData w (Nautobot r) (NodeName node)) (fun looked =>
    match looked with
    | Fail err =>
      emit (EvLogError err "Failed to get device data from Nautobot") ;;;
      ret (mkResult 0, Some err)
    | Ok deviceData =>
      let s := updateLabels (Labels node) deviceData in
      let node := mkNode (NodeName node) (Some (labels s)) in
      if updated s then
        emit (EvLogInfo "Updating node labels") ;;;
        let outcome := Update w node in
        emit (EvUpdate node outcome) ;;;
        match outcome with
        | Some err =>
          ret (mkResult 0, Some (Errorf "failed to update node labels: %w" (ArgW err)))
        | None => ret (mkResult 0, None)
        end
      else ret (mkResult 0, None)
    end)
  end.

End Plain.

(** ** Concrete worlds *)

Definition nautobot : NautobotClient :=
  mkNautobotClient "http://nautobot.local" "placeholder-token".

Definition reconciler : NodeReconciler := mkNodeReconciler nautobot.

(** A world with one node called [name] carrying [l], an inventory that
    answers every request with [status] and a body that decodes to one
    device with the given site and rack names, and an object store that
    answers every update with [upd]. *)
Definition world (name : string) (l : option (gmap string string))
    (status : Z) (site rack : string) (upd : option error) : World :=
  mkWorld
    (fun n => if String.eqb n name then Ok (mkNode name l) else Fail ApiNotFound)
    (fun _ => upd)
    (fun _ => None)
    (fun _ => Ok (mkResponse status "{}"))
    (fun _ => Ok (mkDeviceResponse
                    [mkDeviceResult (mkNamedRef "" site) (mkNamedRef "" rack)])).

(** ** Predicates of the statements *)

(** An event that is not an update leaves the object store alone. *)
Definition quiet (e : Event) : Prop :=
  match e with EvUpdate _ _ => False | _ => True end.

(** What an invocation does to the object store once the lookup succeeded. *)
Definition storeEffect (w : World) (node : Node) (s : LabelState) (t : list Event) : Prop :=
  let node' := mkNode (NodeName node) (Some (labels s)) in
  writes t = (if updated s then [node'] else [])
  /\ forall l, persisted l t
               = if updated s
                 then match Update w node' with None => Some (labels s) | Some _ => l end
                 else l.

(** The label sets on which the two programs take the same decision for a
    device record: a fully labelled node must already carry the record's
    values, and on any other node an empty field of the record must meet an
    empty or absent label. *)
Definition fullyLabelled (L : gmap string string) : Prop :=
  getLabel L zoneKey <> "" /\ getLabel L rackKey <> "".

Definition coincide (l : option (gmap string string)) (d : NautobotDeviceData) : Prop :=
  let L := default ∅ l in
  (fullyLabelled L -> getLabel L zoneKey = SiteName d /\ getLabel L rackKey = RackName d)
  /\ (~ fullyLabelled L ->
      (SiteName d = "" -> getLabel L zoneKey = "")
      /\ (RackName d = "" -> getLabel L rackKey = "")).

(** A "." occurs in [s]. *)
Fixpoint containsDot (s : string) : bool :=
  match s with
  | EmptyString => false
  | String c s' => Ascii.eqb c "." || containsDot s'
  end.

(** ** Configuration and further worlds *)

(** [NewNautobotClient(baseURL, authToken)]; the [http.Client] it builds, with
    its ten second timeout, is the [Do] field of the [World]. *)
Definition NewNautobotClient (url token : string) : NautobotClient :=
  mkNautobotClient url token.

(** Lines 209-217 and 239-247 of [main] (172-180 and 202-210 in the plain
    program): the reconciler configured from the environment, [getenv] being
    [os.Getenv]. *)
Definition mainReconciler (getenv : string -> string) : NodeReconciler :=
  let nautobotURL := getenv "NAUTOBOT_URL" in
  let nautobotURL :=
    if String.eqb nautobotURL "" then "http://nautobot.local" else nautobotURL in
  let nautobotToken := getenv "NAUTOBOT_TOKEN" in
  let nautobotToken :=
    if String.eqb nautobotToken "" then "placeholder-token" else nautobotToken in
  let nautobotClient := NewNautobotClient nautobotURL nautobotToken in
  mkNodeReconciler nautobotClient.

(** A world whose collaborators answer every call the same way. *)
Definition constWorld (got : res Node) (upd : option error) (purl : option error)
    (answer : res Response) (decoded : res deviceResponse) : World :=
  mkWorld (fun _ => got) (fun _ => upd) (fun _ => purl) (fun _ => answer)
    (fun _ => decoded).

(** The request of lines 69-76 for a lookup key. *)
Definition lookupURL (c : NautobotClient) (key : string) : string :=
  baseURL c +:+ "/api/dcim/devices/?name=" +:+ key.

(** * Properties *)

(** Case analysis on every string comparison of a label update. *)
Ltac label_cases :=
  unfold Main.updateLabels, Plain.updateLabels, initLabels, assign, getLabel;
  cbn [labels updated assigned];
  repeat match goal with
         | |- context [String.eqb ?a ?b] => destruct (String.eqb_spec a b)
         end;
  cbn [negb andb labels updated assigned app] in *.

Example ex_main_e2e :
  Main.Reconcile (world "node2" None 200 "dc1" "r12" None) reconciler (mkCtrlRequest "node2")
  = ([EvLogInfo "Reconciling Node"; EvGet "node2";
      EvHttpDo (mkRequest "GET" "http://nautobot.local/api/dcim/devices/?name=node2"
                  (<["Content-Type" := "application/json"]>
                     (<["Authorization" := "Token placeholder-token"]> ∅)));
      EvReadBody "{}";
      EvLogInfo "Updating node labels";
      EvUpdate (mkNode "node2" (Some (<[rackKey := "r12"]> (<[zoneKey := "dc1"]> ∅)))) None],
     (mkResult (1 * Hour), None)).
Proof. vm_compute. reflexivity. Qed.

(** ** Traces of the inventory client *)

Lemma writes_app (t1 t2 : list Event) : writes (t1 ++ t2)%list = (writes t1 ++ writes t2)%list.
Proof. apply omap_app. Qed.

Lemma lookups_app (t1 t2 : list Event) : lookups (t1 ++ t2)%list = (lookups t1 ++ lookups t2)%list.
Proof. apply omap_app. Qed.

Lemma loggedErrors_app (t1 t2 : list Event) :
  loggedErrors (t1 ++ t2)%list = (loggedErrors t1 ++ loggedErrors t2)%list.
Proof. apply omap_app. Qed.

Lemma outcomeUpdated_app (t1 t2 : list Event) :
  outcomeUpdated (t1 ++ t2)%list = outcomeUpdated t1 || outcomeUpdated t2.
Proof. apply existsb_app. Qed.

Lemma persisted_app (l : option (gmap string string)) (t1 t2 : list Event) :
  persisted l (t1 ++ t2)%list = persisted (persisted l t1) t2.
Proof. apply foldl_app. Qed.

Lemma quiet_trace (t : list Event) :
  Forall quiet t ->
  writes t = [] /\ outcomeUpdated t = false /\ forall l, persisted l t = l.
Proof.
  induction 1 as [|e t He _ IH]; [done|].
  destruct IH as (Hw & Hu & Hp).
  destruct e; try contradiction; cbn; rewrite ?Hu; repeat split; auto.
Qed.

(** The inventory client only talks to the inventory. *)
Lemma queryDevice_quiet (w : World) (c : NautobotClient) (key nodeName : string) :
  Forall quiet (queryDevice w c key nodeName).1.
Proof.
  unfold queryDevice, decodeDevice, NewRequest.
  destruct (ParseURL w _); [constructor|].
  cbn. destruct (Do w _) as [resp|e]; [|repeat constructor].
  destruct (negb _); [repeat constructor|].
  cbn. destruct (Decode w _) as [dr|e]; [|repeat constructor].
  destruct (Results dr); repeat constructor.
Qed.

(** A lookup that fails leaves exactly its own events; none is an error log. *)
Lemma queryDevice_logs (w : World) (c : NautobotClient) (key nodeName : string) :
  loggedErrors (queryDevice w c key nodeName).1 = [].
Proof.
  unfold queryDevice, decodeDevice, NewRequest.
  destruct (ParseURL w _); [done|].
  cbn. destruct (Do w _) as [resp|e]; [|done].
  destruct (negb _); [done|].
  cbn. destruct (Decode w _) as [dr|e]; [|done].
  destruct (Results dr); done.
Qed.

(** ** The four ways through [Main.Reconcile] once the node is fetched *)

Section MainRuns.
Variables (w : World) (r : NodeReconciler) (req : ctrlRequest) (node : Node).
Hypothesis fetched : Get w (ReqName req) = Ok node.

Lemma main_run_skip :
  Main.hasAllLabels node = true ->
  Main.Reconcile w r req =
    ([EvLogInfo "Reconciling Node"; EvGet (ReqName req);
      EvLogInfo "Node already has all required labels"],
     (mkResult (12 * Hour), None)).
Proof. intros HA. unfold Main.Reconcile. by rewrite fetched, HA. Qed.

Lemma main_run_lookup_failed (t : list Event) (err : error) :
  Main.hasAllLabels node = false ->
  Main.GetDeviceData w (Nautobot r) (NodeName node) = (t, Fail err) ->
  Main.Reconcile w r req =
    ([EvLogInfo "Reconciling Node"; EvGet (ReqName req)] ++ t
       ++ [EvLogError err "Failed to get device data from Nautobot"],
     (mkResult (5 * Minute), None))%list.
Proof.
  intros HA HD. unfold Main.Reconcile. rewrite fetched, HA. cbn. by rewrite HD.
Qed.

Lemma main_run_unchanged (t : list Event) (d : NautobotDeviceData) :
  Main.hasAllLabels node = false ->
  Main.GetDeviceData w (Nautobot r) (NodeName node) = (t, Ok d) ->
  updated (Main.updateLabels (Labels node) d) = false ->
  Main.Reconcile w r req =
    ([EvLogInfo "Reconciling Node"; EvGet (ReqName req)] ++ t
       ++ [EvLogInfo "No label updates needed"],
     (mkResult (6 * Hour), None))%list.
Proof.
  intros HA HD HU. unfold Main.Reconcile. rewrite fetched, HA.
  cbn -[Main.updateLabels]. rewrite HD. cbn -[Main.updateLabels].
  by rewrite HU.
Qed.

Lemma main_run_write (t : list Event) (d : NautobotDeviceData) :
  Main.hasAllLabels node = false ->
  Main.GetDeviceData w (Nautobot r) (NodeName node) = (t, Ok d) ->
  updated (Main.updateLabels (Labels node) d) = true ->
  let node' := mkNode (NodeName node) (Some (labels (Main.updateLabels (Labels node) d))) in
  Main.Reconcile w r req =
    match Update w node' with
    | Some err =>
      ([EvLogInfo "Reconciling Node"; EvGet (ReqName req)] ++ t
         ++ [EvLogInfo "Updating node labels"; EvUpdate node' (Some err);
             EvLogError err "Failed to update node labels"],
       (mkResult (1 * Minute), Some err))%list
    | None =>
      ([EvLogInfo "Reconciling Node"; EvGet (ReqName req)] ++ t
         ++ [EvLogInfo "Updating node labels"; EvUpdate node' None],
       (mkResult (1 * Hour), None))%list
    end.
Proof.
  intros HA HD HU node'. unfold Main.Reconcile. rewrite fetched, HA.
  cbn -[Main.updateLabels]. rewrite HD. cbn -[Main.updateLabels].
  rewrite HU. fold node'. by destruct (Update w node').
Qed.

End MainRuns.

(** ** The label update *)

Lemma zone_rack_distinct : zoneKey <> rackKey.
Proof. discriminate. Qed.

Lemma main_updateLabels_frame (l : option (gmap string string)) (d : NautobotDeviceData) (k : string) :
  k <> zoneKey -> k <> rackKey ->
  labels (Main.updateLabels l d) !! k = default ∅ l !! k.
Proof.
  intros Hz Hr. label_cases; rewrite ?lookup_insert_ne by congruence; reflexivity.
Qed.

Lemma plain_updateLabels_frame (l : option (gmap string string)) (d : NautobotDeviceData) (k : string) :
  k <> zoneKey -> k <> rackKey ->
  labels (Plain.updateLabels l d) !! k = default ∅ l !! k.
Proof.
  intros Hz Hr. label_cases; rewrite ?lookup_insert_ne by congruence; reflexivity.
Qed.

(** The guarded update assigns non-empty values only. *)
Lemma main_assigned_nonempty (l : option (gmap string string)) (d : NautobotDeviceData) (k v : string) :
  (k, v) ∈ assigned (Main.updateLabels l d) -> v <> "".
Proof.
  label_cases; intros Hin;
    repeat (apply elem_of_cons in Hin as [Hin|Hin]; [congruence|]);
    by apply elem_of_nil in Hin.
Qed.

(** The label map after the update is the map before it with the recorded
    assignments replayed in order. *)
Lemma main_labels_replay (l : option (gmap string string)) (d : NautobotDeviceData) :
  labels (Main.updateLabels l d)
  = foldl (fun m kv => <[kv.1 := kv.2]> m) (default ∅ l) (assigned (Main.updateLabels l d))
  /\ (updated (Main.updateLabels l d) = true <-> assigned (Main.updateLabels l d) <> []).
Proof. label_cases; split; try reflexivity; split; congruence. Qed.

Lemma plain_labels_replay (l : option (gmap string string)) (d : NautobotDeviceData) :
  labels (Plain.updateLabels l d)
  = foldl (fun m kv => <[kv.1 := kv.2]> m) (default ∅ l) (assigned (Plain.updateLabels l d))
  /\ (updated (Plain.updateLabels l d) = true <-> assigned (Plain.updateLabels l d) <> []).
Proof. label_cases; split; try reflexivity; split; congruence. Qed.

Lemma hasAllLabels_true (node : Node) :
  Main.hasAllLabels node = true <->
  exists L z r, Labels node = Some L /\ L !! zoneKey = Some z /\ z <> ""
                /\ L !! rackKey = Some r /\ r <> "".
Proof.
  unfold Main.hasAllLabels, getLabelOk. split.
  - destruct (Labels node) as [L|]; [|discriminate].
    destruct (L !! zoneKey) as [z|] eqn:Ez, (L !! rackKey) as [r|] eqn:Er;
      cbn; try discriminate.
    destruct (String.eqb_spec z ""), (String.eqb_spec r ""); cbn; try discriminate.
    intros _. exists L, z, r. auto.
  - intros (L & z & r & -> & -> & Hz & -> & Hr). cbn.
    destruct (String.eqb_spec z ""), (String.eqb_spec r ""); cbn; congruence.
Qed.

(** ** What [Reconcile] can write *)

Lemma main_lookup_quiet (w : World) (c : NautobotClient) (nodeName : string)
    (t : list Event) (x : res NautobotDeviceData) :
  Main.GetDeviceData w c nodeName = (t, x) ->
  writes t = [] /\ outcomeUpdated t = false /\ forall l, persisted l t = l.
Proof.
  intros HD. apply quiet_trace.
  pose proof (queryDevice_quiet w c (Main.hostname nodeName) nodeName) as Hq.
  unfold Main.GetDeviceData in HD. by rewrite HD in Hq.
Qed.

Lemma plain_lookup_quiet (w : World) (c : NautobotClient) (nodeName : string)
    (t : list Event) (x : res NautobotDeviceData) :
  Plain.GetDeviceData w c nodeName = (t, x) ->
  writes t = [] /\ outcomeUpdated t = false /\ forall l, persisted l t = l.
Proof.
  intros HD. apply quiet_trace.
  pose proof (queryDevice_quiet w c nodeName nodeName) as Hq.
  unfold Plain.GetDeviceData in HD. by rewrite HD in Hq.
Qed.

Lemma main_writes_inv (w : World) (r : NodeReconciler) (req : ctrlRequest) (node n : Node) :
  Get w (ReqName req) = Ok node ->
  n ∈ writes (Main.Reconcile w r req).1 ->
  exists d, n = mkNode (NodeName node) (Some (labels (Main.updateLabels (Labels node) d)))
            /\ writes (Main.Reconcile w r req).1 = [n]
            /\ Main.hasAllLabels node = false
            /\ (Main.GetDeviceData w (Nautobot r) (NodeName node)).2 = Ok d
            /\ updated (Main.updateLabels (Labels node) d) = true.
Proof.
  intros HG.
  destruct (Main.hasAllLabels node) eqn:HA.
  { rewrite (main_run_skip w r req node HG HA). cbn. by intros ?%elem_of_nil. }
  destruct (Main.GetDeviceData w (Nautobot r) (NodeName node)) as [t [d|err]] eqn:HD.
  2:{ rewrite (main_run_lookup_failed w r req node HG t err HA HD). cbn.
      rewrite writes_app.
      destruct (main_lookup_quiet _ _ _ _ _ HD) as (-> & _).
      cbn. by intros ?%elem_of_nil. }
  destruct (main_lookup_quiet _ _ _ _ _ HD) as (Hq & _).
  destruct (updated (Main.updateLabels (Labels node) d)) eqn:HU.
  - pose proof (main_run_write w r req node HG t d HA HD HU) as Hrun. cbn zeta in Hrun.
    rewrite Hrun. destruct (Update w _); cbn; rewrite writes_app, Hq; cbn;
      intros ->%list_elem_of_singleton; exists d; auto.
  - rewrite (main_run_unchanged w r req node HG t d HA HD HU). cbn.
    rewrite writes_app, Hq. cbn. by intros ?%elem_of_nil.
Qed.

Lemma plain_writes_inv (w : World) (r : NodeReconciler) (req : ctrlRequest) (node n : Node) :
  Get w (ReqName req) = Ok node ->
  n ∈ writes (Plain.Reconcile w r req).1 ->
  exists d, n = mkNode (NodeName node) (Some (labels (Plain.updateLabels (Labels node) d)))
            /\ writes (Plain.Reconcile w r req).1 = [n]
            /\ (Plain.GetDeviceData w (Nautobot r) (NodeName node)).2 = Ok d
            /\ updated (Plain.updateLabels (Labels node) d) = true.
Proof.
  intros HG. unfold Plain.Reconcile. rewrite HG. cbn -[Plain.updateLabels].
  destruct (Plain.GetDeviceData w (Nautobot r) (NodeName node)) as [t [d|err]] eqn:HD;
    cbn -[Plain.updateLabels].
  2:{ rewrite writes_app.
      destruct (plain_lookup_quiet _ _ _ _ _ HD) as (-> & _).
      cbn. by intros ?%elem_of_nil. }
  destruct (plain_lookup_quiet _ _ _ _ _ HD) as (Hq & _).
  destruct (updated (Plain.updateLabels (Labels node) d)) eqn:HU.
  - destruct (Update w _); cbn -[Plain.updateLabels]; rewrite writes_app, Hq;
      cbn -[Plain.updateLabels]; intros ->%list_elem_of_singleton; exists d; auto.
  - cbn. rewrite writes_app, Hq. cbn. by intros ?%elem_of_nil.
Qed.

(** ** Properties of the label policy and of the reconcile outcome *)

(** C1 (as amended), no erasure in [src/main.go]: when a managed key holds a
    non-empty value and the device record has an empty value for it, the
    guarded label update executes no assignment to that key and leaves its
    value in place; and whatever a [Main.Reconcile] invocation on that node
    submits to the object store still holds a non-empty value under the key. *)
Theorem main_no_erasure (L : gmap string string) (d : NautobotDeviceData) (k z : string) :
  L !! k = Some z -> z <> "" ->
  (k = zoneKey /\ SiteName d = "") \/ (k = rackKey /\ RackName d = "") ->
  (k ∉ (assigned (Main.updateLabels (Some L) d)).*1)
  /\ labels (Main.updateLabels (Some L) d) !! k = Some z
  /\ forall (w : World) (r : NodeReconciler) (req : ctrlRequest) (name : string) (n : Node),
       Get w (ReqName req) = Ok (mkNode name (Some L)) ->
       n ∈ writes (Main.Reconcile w r req).1 ->
       exists L' z', Labels n = Some L' /\ L' !! k = Some z' /\ z' <> "".
Proof.
  intros HL Hz Hk.
  assert (Hm : k = zoneKey \/ k = rackKey) by tauto.
  split; [|split].
  - destruct Hk as [[-> Hs]|[-> Hr]]; label_cases; try congruence; cbn;
      rewrite ?not_elem_of_cons; repeat split; by (discriminate || apply not_elem_of_nil).
  - destruct Hk as [[-> Hs]|[-> Hr]]; label_cases; try congruence; cbn;
      rewrite ?lookup_insert_ne by discriminate; assumption.
  - intros w r req name n HG Hin.
    destruct (main_writes_inv w r req _ n HG Hin) as (d' & -> & _).
    cbn [Labels]. eexists.
    assert (Hv : exists z', labels (Main.updateLabels (Some L) d') !! k = Some z' /\ z' <> "");
      [|destruct Hv as (z' & Hv); exists z'; split; [reflexivity|exact Hv]].
    destruct Hm as [-> | ->]; label_cases; cbn;
      rewrite ?lookup_insert_eq, ?lookup_insert_ne, ?lookup_insert_eq by discriminate; eauto.
Qed.

Lemma main_no_erasure_witness :
  (zoneKey ∉ (assigned (Main.updateLabels (Some {[zoneKey := "dc1"]}) (mkDeviceData "" "r12"))).*1)
  /\ labels (Main.updateLabels (Some {[zoneKey := "dc1"]}) (mkDeviceData "" "r12")) !! zoneKey
     = Some "dc1".
Proof.
  pose proof (main_no_erasure {[zoneKey := "dc1"]} (mkDeviceData "" "r12") zoneKey "dc1") as H.
  destruct H as (H1 & H2 & _).
  - apply lookup_singleton_eq.
  - discriminate.
  - left. split; reflexivity.
  - split; assumption.
Defined.

(** C1 as stated fails for the reconcile of [src/unnamed/part_001]: with the
    zone label at "dc1" and a device record whose site name is empty, its
    unguarded update assigns the empty string to the zone key, and the
    invocation persists that. *)
Lemma plain_erases_zone :
  let L : gmap string string := {[zoneKey := "dc1"]} in
  let d := mkDeviceData "" "r12" in
  let w := world "node2" (Some L) 200 "" "r12" None in
  L !! zoneKey = Some "dc1"
  /\ (Plain.GetDeviceData w nautobot "node2").2 = Ok d
  /\ assigned (Plain.updateLabels (Some L) d) = [(zoneKey, ""); (rackKey, "r12")]
  /\ writes (Plain.Reconcile w reconciler (mkCtrlRequest "node2")).1
     = [mkNode "node2" (Some (<[rackKey := "r12"]> (<[zoneKey := ""]> L)))]
  /\ persisted (Some L) (Plain.Reconcile w reconciler (mkCtrlRequest "node2")).1
     = Some (<[rackKey := "r12"]> (<[zoneKey := ""]> L)).
Proof. vm_compute. repeat split. Qed.

(** C2 (as amended), the end-to-end scenario of [src/main.go]: for a node
    whose label map is nil or empty and a lookup that returns site "dc1" and
    rack "r12", the invocation submits exactly one update, whose label set is
    zone = "dc1", rack = "r12"; when the object store accepts it the result is
    a requeue after one hour with no error and the outcome is updated; when
    the object store rejects it with [err] the result is a requeue after one
    minute together with [err], and nothing was updated. *)
Theorem main_end_to_end (w : World) (r : NodeReconciler) (req : ctrlRequest) (node : Node) :
  Get w (ReqName req) = Ok node ->
  Labels node = None \/ Labels node = Some ∅ ->
  (Main.GetDeviceData w (Nautobot r) (NodeName node)).2 = Ok (mkDeviceData "dc1" "r12") ->
  let node' := mkNode (NodeName node) (Some (<[rackKey := "r12"]> {[zoneKey := "dc1"]})) in
  let run := Main.Reconcile w r req in
  writes run.1 = [node']
  /\ (Update w node' = None ->
      run.2 = (mkResult 3600000000000, None) /\ outcomeUpdated run.1 = true
      /\ persisted (Labels node) run.1 = Labels node')
  /\ (forall err, Update w node' = Some err ->
      run.2 = (mkResult 60000000000, Some err) /\ outcomeUpdated run.1 = false
      /\ persisted (Labels node) run.1 = Labels node).
Proof.
  intros HG HL HD node' run.
  assert (HA : Main.hasAllLabels node = false).
  { unfold Main.hasAllLabels. by destruct HL as [-> | ->]. }
  destruct (Main.GetDeviceData w (Nautobot r) (NodeName node)) as [t x] eqn:HD'.
  cbn in HD. subst x.
  assert (HS : Main.updateLabels (Labels node) (mkDeviceData "dc1" "r12")
               = mkLabelState (<[rackKey := "r12"]> {[zoneKey := "dc1"]}) true
                   [(zoneKey, "dc1"); (rackKey, "r12")]).
  { destruct HL as [-> | ->]; reflexivity. }
  pose proof (main_run_write w r req node HG t _ HA HD') as Hrun.
  rewrite HS in Hrun. cbn [updated labels] in Hrun. specialize (Hrun eq_refl).
  cbn zeta in Hrun. fold node' in Hrun. fold run in Hrun.
  destruct (main_lookup_quiet _ _ _ _ _ HD') as (Hw & Hu & Hp).
  destruct (Update w node') as [err|] eqn:HU; rewrite Hrun; cbn [fst snd];
    rewrite !writes_app, !outcomeUpdated_app, !persisted_app, Hw, Hu, Hp; cbn.
  - split; [reflexivity|]. split; [discriminate|].
    intros err' [= <-]. auto.
  - split; [reflexivity|]. split; [auto|discriminate].
Qed.

Lemma main_end_to_end_witness :
  writes (Main.Reconcile (world "node2" None 200 "dc1" "r12" None) reconciler
            (mkCtrlRequest "node2")).1
  = [mkNode "node2" (Some (<[rackKey := "r12"]> {[zoneKey := "dc1"]}))].
Proof.
  refine (proj1 (main_end_to_end (world "node2" None 200 "dc1" "r12" None) reconciler
                   (mkCtrlRequest "node2") (mkNode "node2" None) _ _ _)).
  - reflexivity.
  - left. reflexivity.
  - reflexivity.
Defined.

(** C2 as stated fails when the object store rejects the update: the write
    is submitted, but the invocation returns the error with a one-minute
    requeue and nothing is updated. *)
Lemma main_end_to_end_rejected :
  let w := world "node2" None 200 "dc1" "r12" (Some (ApiError "conflict")) in
  let run := Main.Reconcile w reconciler (mkCtrlRequest "node2") in
  Get w "node2" = Ok (mkNode "node2" None)
  /\ (Main.GetDeviceData w nautobot "node2").2 = Ok (mkDeviceData "dc1" "r12")
  /\ writes run.1 = [mkNode "node2" (Some (<[rackKey := "r12"]> {[zoneKey := "dc1"]}))]
  /\ run.2 = (mkResult (1 * Minute), Some (ApiError "conflict"))
  /\ run.2 <> (mkResult (1 * Hour), None)
  /\ outcomeUpdated run.1 = false.
Proof. vm_compute. repeat split. discriminate. Qed.

(** C3, the short circuit of [src/main.go]: for every node whose label set
    holds non-empty values under both managed keys, the invocation sends no
    inventory request and submits no update, and returns a requeue after
    twelve hours (43200000000000 ns) with no error; nothing is updated. *)
Theorem main_short_circuit (w : World) (r : NodeReconciler) (req : ctrlRequest)
    (node : Node) (L : gmap string string) (zone rack : string) :
  Get w (ReqName req) = Ok node ->
  Labels node = Some L ->
  L !! zoneKey = Some zone -> zone <> "" ->
  L !! rackKey = Some rack -> rack <> "" ->
  let run := Main.Reconcile w r req in
  lookups run.1 = []
  /\ writes run.1 = []
  /\ run.2 = (mkResult 43200000000000, None)
  /\ outcomeUpdated run.1 = false
  /\ persisted (Labels node) run.1 = Labels node.
Proof.
  intros HG HL Hz Hzn Hr Hrn run.
  assert (HA : Main.hasAllLabels node = true).
  { apply hasAllLabels_true. exists L, zone, rack. auto. }
  subst run. rewrite (main_run_skip w r req node HG HA). repeat split.
Qed.

Lemma main_short_circuit_witness :
  let L : gmap string string := <[rackKey := "r12"]> {[zoneKey := "dc1"]} in
  let run := Main.Reconcile (world "node2" (Some L) 200 "dc9" "r99" None) reconciler
               (mkCtrlRequest "node2") in
  lookups run.1 = [] /\ writes run.1 = [] /\ run.2 = (mkResult (12 * Hour), None).
Proof.
  intros L run.
  destruct (main_short_circuit (world "node2" (Some L) 200 "dc9" "r99" None) reconciler
              (mkCtrlRequest "node2") (mkNode "node2" (Some L)) L "dc1" "r12")
    as (H1 & H2 & H3 & _).
  - reflexivity.
  - reflexivity.
  - reflexivity.
  - discriminate.
  - reflexivity.
  - discriminate.
  - auto.
Defined.

(** C4 (as amended), a failed lookup in [src/main.go]: when the inventory
    lookup of an invocation fails with [err], the invocation logs [err],
    submits no update, updates nothing, and returns a requeue after five
    minutes (300000000000 ns) with a nil error: the failure is reported in
    the log only and is not part of the returned outcome. *)
Theorem main_lookup_failure (w : World) (r : NodeReconciler) (req : ctrlRequest)
    (node : Node) (err : error) :
  Get w (ReqName req) = Ok node ->
  Main.hasAllLabels node = false ->
  (Main.GetDeviceData w (Nautobot r) (NodeName node)).2 = Fail err ->
  let run := Main.Reconcile w r req in
  run.2 = (mkResult 300000000000, None)
  /\ loggedErrors run.1 = [err]
  /\ writes run.1 = []
  /\ outcomeUpdated run.1 = false
  /\ persisted (Labels node) run.1 = Labels node.
Proof.
  intros HG HA HD run.
  destruct (Main.GetDeviceData w (Nautobot r) (NodeName node)) as [t x] eqn:HD'.
  cbn in HD. subst x. subst run.
  rewrite (main_run_lookup_failed w r req node HG t err HA HD'). cbn [fst snd].
  destruct (main_lookup_quiet _ _ _ _ _ HD') as (Hw & Hu & Hp).
  assert (Hl : loggedErrors t = []).
  { pose proof (queryDevice_logs w (Nautobot r) (Main.hostname (NodeName node)) (NodeName node)) as Hq.
    unfold Main.GetDeviceData in HD'. by rewrite HD' in Hq. }
  rewrite !writes_app, !outcomeUpdated_app, !persisted_app, !loggedErrors_app, Hw, Hu, Hp, Hl.
  repeat split.
Qed.

Lemma main_lookup_failure_witness :
  let run := Main.Reconcile (world "node2" None 503 "dc1" "r12" None) reconciler
               (mkCtrlRequest "node2") in
  run.2 = (mkResult (5 * Minute), None)
  /\ loggedErrors run.1 = [Errorf "Nautobot returned non-200 status: %d" (ArgD 503)].
Proof.
  intros run.
  destruct (main_lookup_failure (world "node2" None 503 "dc1" "r12" None) reconciler
              (mkCtrlRequest "node2") (mkNode "node2" None)
              (Errorf "Nautobot returned non-200 status: %d" (ArgD 503)))
    as (H1 & H2 & _).
  - reflexivity.
  - reflexivity.
  - reflexivity.
  - auto.
Defined.

(** C4 as stated fails on the error: with an inventory that answers 503 the
    lookup fails, yet the error returned by the invocation is nil. *)
Lemma main_lookup_failure_returns_nil :
  let w := world "node2" None 503 "dc1" "r12" None in
  let run := Main.Reconcile w reconciler (mkCtrlRequest "node2") in
  (Main.GetDeviceData w nautobot "node2").2
  = Fail (Errorf "Nautobot returned non-200 status: %d" (ArgD 503))
  /\ run.2.2 = None
  /\ run.2.1 = mkResult (5 * Minute).
Proof. vm_compute. repeat split. Qed.

(** C5, the frame of the label update: whatever an invocation of either
    program submits to the object store is the fetched node with, under every
    key other than the two managed ones, exactly the binding (or absence of
    one) that the fetched label map has. *)
Theorem reconcile_merges (w : World) (r : NodeReconciler) (req : ctrlRequest)
    (node n : Node) (k : string) :
  Get w (ReqName req) = Ok node ->
  k <> zoneKey -> k <> rackKey ->
  n ∈ writes (Main.Reconcile w r req).1 \/ n ∈ writes (Plain.Reconcile w r req).1 ->
  NodeName n = NodeName node
  /\ default ∅ (Labels n) !! k = default ∅ (Labels node) !! k.
Proof.
  intros HG Hz Hr [Hin | Hin].
  - destruct (main_writes_inv w r req node n HG Hin) as (d & -> & _).
    split; [reflexivity|]. cbn. by apply main_updateLabels_frame.
  - destruct (plain_writes_inv w r req node n HG Hin) as (d & -> & _).
    split; [reflexivity|]. cbn. by apply plain_updateLabels_frame.
Qed.

Lemma reconcile_merges_witness :
  let L : gmap string string := {[ "kubernetes.io/hostname" := "node2" ]} in
  default ∅ (Labels (mkNode "node2" (Some (<[rackKey := "r12"]> (<[zoneKey := "dc1"]> L)))))
    !! "kubernetes.io/hostname"
  = Some "node2".
Proof.
  intros L.
  refine (proj2 (reconcile_merges (world "node2" (Some L) 200 "dc1" "r12" None) reconciler
                   (mkCtrlRequest "node2") (mkNode "node2" (Some L))
                   (mkNode "node2" (Some (<[rackKey := "r12"]> (<[zoneKey := "dc1"]> L))))
                   "kubernetes.io/hostname" _ _ _ _)).
  - reflexivity.
  - discriminate.
  - discriminate.
  - left. vm_compute. apply list_elem_of_singleton. reflexivity.
Defined.

(** C6, idempotence in [src/main.go]: when the label set already maps the
    zone key to the record's non-empty site name and the rack key to its
    non-empty rack name, the label update executes no assignment, leaves
    [updated] false and the map as it is; an invocation on such a node submits
    no update and updates nothing. *)
Theorem main_idempotent (L : gmap string string) (d : NautobotDeviceData) :
  SiteName d <> "" -> RackName d <> "" ->
  L !! zoneKey = Some (SiteName d) -> L !! rackKey = Some (RackName d) ->
  assigned (Main.updateLabels (Some L) d) = []
  /\ updated (Main.updateLabels (Some L) d) = false
  /\ labels (Main.updateLabels (Some L) d) = L
  /\ forall (w : World) (r : NodeReconciler) (req : ctrlRequest) (name : string),
       Get w (ReqName req) = Ok (mkNode name (Some L)) ->
       writes (Main.Reconcile w r req).1 = []
       /\ outcomeUpdated (Main.Reconcile w r req).1 = false
       /\ persisted (Some L) (Main.Reconcile w r req).1 = Some L.
Proof.
  intros Hs Hr Hz Hk.
  assert (Hstep : Main.updateLabels (Some L) d = mkLabelState L false []).
  { unfold Main.updateLabels, initLabels, getLabel.
    change (default ∅ (Some L)) with L. cbn [labels].
    rewrite Hz. cbn [default from_option id]. rewrite String.eqb_refl, andb_false_r.
    cbn [labels]. rewrite Hk. cbn [default from_option id].
    rewrite String.eqb_refl, andb_false_r. reflexivity. }
  rewrite Hstep. repeat split; intros.
  all: rewrite (main_run_skip w r req (mkNode name (Some L))); try reflexivity; try assumption.
  all: apply hasAllLabels_true; exists L, (SiteName d), (RackName d); auto.
Qed.

Lemma main_idempotent_witness :
  assigned (Main.updateLabels (Some (<[rackKey := "r12"]> {[zoneKey := "dc1"]}))
              (mkDeviceData "dc1" "r12")) = [].
Proof.
  refine (proj1 (main_idempotent (<[rackKey := "r12"]> {[zoneKey := "dc1"]})
                   (mkDeviceData "dc1" "r12") _ _ _ _)).
  - discriminate.
  - discriminate.
  - reflexivity.
  - reflexivity.
Defined.

(** ** The two programs compared *)

Lemma main_effect (w : World) (r : NodeReconciler) (req : ctrlRequest) (node : Node)
    (d : NautobotDeviceData) :
  Get w (ReqName req) = Ok node ->
  Main.hasAllLabels node = false ->
  (Main.GetDeviceData w (Nautobot r) (NodeName node)).2 = Ok d ->
  storeEffect w node (Main.updateLabels (Labels node) d) (Main.Reconcile w r req).1.
Proof.
  intros HG HA HD.
  destruct (Main.GetDeviceData w (Nautobot r) (NodeName node)) as [t x] eqn:HD'.
  cbn in HD. subst x.
  destruct (main_lookup_quiet _ _ _ _ _ HD') as (Hw & _ & Hp).
  unfold storeEffect.
  destruct (updated (Main.updateLabels (Labels node) d)) eqn:HU.
  - pose proof (main_run_write w r req node HG t d HA HD' HU) as Hrun. cbn zeta in Hrun.
    rewrite Hrun.
    destruct (Update w _); cbn [fst]; rewrite !writes_app, Hw; (split; [reflexivity|]);
      intros l; rewrite !persisted_app, Hp; reflexivity.
  - rewrite (main_run_unchanged w r req node HG t d HA HD' HU). cbn [fst].
    rewrite !writes_app, Hw. split; [reflexivity|].
    intros l. rewrite !persisted_app, Hp. reflexivity.
Qed.

Lemma plain_effect (w : World) (r : NodeReconciler) (req : ctrlRequest) (node : Node)
    (d : NautobotDeviceData) :
  Get w (ReqName req) = Ok node ->
  (Plain.GetDeviceData w (Nautobot r) (NodeName node)).2 = Ok d ->
  storeEffect w node (Plain.updateLabels (Labels node) d) (Plain.Reconcile w r req).1.
Proof.
  intros HG HD.
  destruct (Plain.GetDeviceData w (Nautobot r) (NodeName node)) as [t x] eqn:HD'.
  cbn in HD. subst x.
  destruct (plain_lookup_quiet _ _ _ _ _ HD') as (Hw & _ & Hp).
  unfold storeEffect, Plain.Reconcile. rewrite HG. cbn -[Plain.updateLabels].
  rewrite HD'. cbn -[Plain.updateLabels].
  destruct (updated (Plain.updateLabels (Labels node) d)) eqn:HU.
  - destruct (Update w _); cbn -[Plain.updateLabels]; rewrite !writes_app, Hw;
      (split; [reflexivity|]); intros l; rewrite !persisted_app, Hp; reflexivity.
  - cbn. rewrite !writes_app, Hw. split; [reflexivity|].
    intros l. rewrite !persisted_app, Hp. reflexivity.
Qed.

Lemma hasAllLabels_getLabel (node : Node) :
  Main.hasAllLabels node = true <->
  getLabel (default ∅ (Labels node)) zoneKey <> ""
  /\ getLabel (default ∅ (Labels node)) rackKey <> "".
Proof.
  rewrite hasAllLabels_true. unfold getLabel. split.
  - intros (L & z & r & -> & Hz & Hzn & Hr & Hrn). cbn. by rewrite Hz, Hr.
  - destruct (Labels node) as [L|]; cbn; [|rewrite lookup_empty; cbn; tauto].
    destruct (L !! zoneKey) as [z|] eqn:Ez, (L !! rackKey) as [r|] eqn:Er; cbn;
      try tauto.
    intros [Hz Hr]. exists L, z, r. auto.
Qed.

(** The plain update mirrors the record. *)
Lemma plain_mirrors (l : option (gmap string string)) (d : NautobotDeviceData) :
  getLabel (labels (Plain.updateLabels l d)) zoneKey = SiteName d
  /\ getLabel (labels (Plain.updateLabels l d)) rackKey = RackName d.
Proof.
  unfold getLabel at 1 2.
  label_cases;
    rewrite ?lookup_insert_eq, ?lookup_insert_ne, ?lookup_insert_eq by discriminate;
    cbn; split; try reflexivity; try assumption.
  all: match goal with
       | H : default _ (<[_ := _]> _ !! _) = _ |- _ =>
         rewrite lookup_insert_ne in H by discriminate; exact H
       end.
Qed.

(** The guarded update keeps the label of an empty field. *)
Lemma main_keeps (l : option (gmap string string)) (d : NautobotDeviceData) :
  (SiteName d = "" ->
   getLabel (labels (Main.updateLabels l d)) zoneKey = getLabel (default ∅ l) zoneKey)
  /\ (RackName d = "" ->
      getLabel (labels (Main.updateLabels l d)) rackKey = getLabel (default ∅ l) rackKey).
Proof.
  unfold getLabel at 1 2 3 4.
  label_cases; split; intros; try congruence;
    rewrite ?lookup_insert_ne by discriminate; reflexivity.
Qed.

Lemma main_unchanged (l : option (gmap string string)) (d : NautobotDeviceData) :
  updated (Main.updateLabels l d) = false -> labels (Main.updateLabels l d) = default ∅ l.
Proof. label_cases; intros; congruence. Qed.

Lemma plain_unchanged (l : option (gmap string string)) (d : NautobotDeviceData) :
  updated (Plain.updateLabels l d) = false -> labels (Plain.updateLabels l d) = default ∅ l.
Proof. label_cases; intros; congruence. Qed.

(** Off the fully labelled nodes, the two updates are the same function
    wherever an empty field meets an empty label. *)
Lemma updateLabels_coincide (l : option (gmap string string)) (d : NautobotDeviceData) :
  (SiteName d = "" -> getLabel (default ∅ l) zoneKey = "") ->
  (RackName d = "" -> getLabel (default ∅ l) rackKey = "") ->
  Main.updateLabels l d = Plain.updateLabels l d.
Proof.
  intros Hz Hr. unfold Main.updateLabels, Plain.updateLabels, initLabels.
  set (L := default ∅ l) in *.
  assert (E1 : negb (String.eqb (SiteName d) "")
               && negb (String.eqb (getLabel L zoneKey) (SiteName d))
               = negb (String.eqb (getLabel L zoneKey) (SiteName d))).
  { destruct (String.eqb_spec (SiteName d) "") as [e|]; [|reflexivity].
    cbn. rewrite (Hz e), e. reflexivity. }
  cbn [labels]. rewrite E1. clear E1.
  set (s := if negb (String.eqb (getLabel L zoneKey) (SiteName d)) then _ else _).
  assert (E2 : getLabel (labels s) rackKey = getLabel L rackKey).
  { subst s. unfold getLabel. destruct (negb _); cbn; [|reflexivity].
    by rewrite lookup_insert_ne by discriminate. }
  destruct (String.eqb_spec (RackName d) "") as [e|]; [|reflexivity].
  cbn. rewrite E2, (Hr e), e. reflexivity.
Qed.

(** The label map in the object store after an invocation whose lookup
    succeeded, when the store accepts every update, read with absent keys as
    empty strings: it is the label map the update step computed. *)
Lemma storeEffect_labels (w : World) (node : Node) (s : LabelState) (t : list Event) :
  (forall n, Update w n = None) ->
  (updated s = false -> labels s = default ∅ (Labels node)) ->
  storeEffect w node s t ->
  default ∅ (persisted (Labels node) t) = labels s.
Proof.
  intros Hacc Hun (_ & Hp). rewrite Hp.
  destruct (updated s); [by rewrite Hacc | symmetry; auto].
Qed.

(** C7 (as amended), the two programs compared on the same fetched node and
    the same successful lookup result: on the label sets of [coincide] they
    submit the same updates and leave the same label set in the object store;
    and when the object store accepts every update, they leave the same label
    set only on those. *)
Theorem variants_agree (w : World) (r : NodeReconciler) (req : ctrlRequest)
    (node : Node) (d : NautobotDeviceData) :
  Get w (ReqName req) = Ok node ->
  (Main.GetDeviceData w (Nautobot r) (NodeName node)).2 = Ok d ->
  (Plain.GetDeviceData w (Nautobot r) (NodeName node)).2 = Ok d ->
  let main := (Main.Reconcile w r req).1 in
  let plain := (Plain.Reconcile w r req).1 in
  (coincide (Labels node) d ->
   writes main = writes plain
   /\ persisted (Labels node) main = persisted (Labels node) plain)
  /\ ((forall n, Update w n = None) ->
      persisted (Labels node) main = persisted (Labels node) plain ->
      coincide (Labels node) d).
Proof.
  intros HG HM HP main plain.
  pose proof (plain_effect w r req node d HG HP) as HEp. fold plain in HEp.
  pose proof (plain_mirrors (Labels node) d) as [Hmz Hmr].
  destruct (Main.hasAllLabels node) eqn:HA.
  - (* fully labelled: the main program skips *)
    assert (Hfull : fullyLabelled (default ∅ (Labels node))) by by apply hasAllLabels_getLabel.
    assert (Hskip : main = [EvLogInfo "Reconciling Node"; EvGet (ReqName req);
                            EvLogInfo "Node already has all required labels"]).
    { subst main. by rewrite (main_run_skip w r req node HG HA). }
    split.
    + intros [Hc _]. destruct (Hc Hfull) as [Hz Hr].
      assert (Hst : Plain.updateLabels (Labels node) d
                    = mkLabelState (default ∅ (Labels node)) false []).
      { unfold Plain.updateLabels, initLabels. cbn [labels].
        rewrite Hz, String.eqb_refl. cbn [negb labels].
        rewrite Hr, String.eqb_refl. reflexivity. }
      destruct HEp as [Hw Hp]. rewrite Hst in Hw, Hp. cbn in Hw, Hp.
      rewrite Hw, Hp, Hskip. split; reflexivity.
    + intros Hacc Heq. split; [|tauto]. intros _.
      assert (Hl : default ∅ (persisted (Labels node) plain)
                   = labels (Plain.updateLabels (Labels node) d)).
      { apply (storeEffect_labels w); auto using plain_unchanged. }
      rewrite <- Heq, Hskip in Hl. cbn in Hl. rewrite Hl. auto.
  - (* otherwise both programs run their update step *)
    assert (Hnot : ~ fullyLabelled (default ∅ (Labels node))).
    { intros Hf. apply hasAllLabels_getLabel in Hf. congruence. }
    pose proof (main_effect w r req node d HG HA HM) as HEm. fold main in HEm.
    split.
    + intros [_ Hc]. destruct (Hc Hnot) as [Hz Hr].
      rewrite (updateLabels_coincide _ _ Hz Hr) in HEm.
      destruct HEm as [Hw Hp], HEp as [Hw' Hp'].
      rewrite Hw, Hw', Hp, Hp'. split; reflexivity.
    + intros Hacc Heq. split; [tauto|]. intros _.
      assert (Hl : labels (Main.updateLabels (Labels node) d)
                   = labels (Plain.updateLabels (Labels node) d)).
      { rewrite <- (storeEffect_labels w node _ main Hacc (main_unchanged _ _) HEm).
        rewrite <- (storeEffect_labels w node _ plain Hacc (plain_unchanged _ _) HEp).
        by rewrite Heq. }
      destruct (main_keeps (Labels node) d) as [Hkz Hkr].
      split; intros He.
      * rewrite <- (Hkz He), Hl, Hmz. exact He.
      * rewrite <- (Hkr He), Hl, Hmr. exact He.
Qed.

Lemma variants_agree_witness :
  let w := world "node2" None 200 "dc1" "r12" None in
  writes (Main.Reconcile w reconciler (mkCtrlRequest "node2")).1
  = writes (Plain.Reconcile w reconciler (mkCtrlRequest "node2")).1.
Proof.
  intros w.
  refine (proj1 (proj1 (variants_agree w reconciler (mkCtrlRequest "node2")
                          (mkNode "node2" None) (mkDeviceData "dc1" "r12") _ _ _) _)).
  - reflexivity.
  - reflexivity.
  - reflexivity.
  - split.
    + intros [Hz _]. exfalso. apply Hz. reflexivity.
    + intros _. split; discriminate.
Defined.

(** C7 as stated fails in two ways.  On a node that already carries both
    labels, a record with other values is ignored by [src/main.go] and
    written by the plain program; and on a node with a zone label, a record
    with an empty site name is written as it is by the plain program only. *)
Lemma variants_differ :
  let L1 : gmap string string := <[rackKey := "r12"]> {[zoneKey := "dc1"]} in
  let w1 := world "node2" (Some L1) 200 "dc2" "r7" None in
  let L2 : gmap string string := {[zoneKey := "dc1"]} in
  let w2 := world "node2" (Some L2) 200 "" "r12" None in
  let req := mkCtrlRequest "node2" in
  ((Main.GetDeviceData w1 nautobot "node2").2 = Ok (mkDeviceData "dc2" "r7")
   /\ (Plain.GetDeviceData w1 nautobot "node2").2 = Ok (mkDeviceData "dc2" "r7")
   /\ persisted (Some L1) (Main.Reconcile w1 reconciler req).1 = Some L1
   /\ persisted (Some L1) (Plain.Reconcile w1 reconciler req).1
      = Some (<[rackKey := "r7"]> {[zoneKey := "dc2"]})
   /\ persisted (Some L1) (Main.Reconcile w1 reconciler req).1
      <> persisted (Some L1) (Plain.Reconcile w1 reconciler req).1)
  /\ ((Main.GetDeviceData w2 nautobot "node2").2 = Ok (mkDeviceData "" "r12")
      /\ (Plain.GetDeviceData w2 nautobot "node2").2 = Ok (mkDeviceData "" "r12")
      /\ persisted (Some L2) (Main.Reconcile w2 reconciler req).1
         = Some (<[rackKey := "r12"]> {[zoneKey := "dc1"]})
      /\ persisted (Some L2) (Plain.Reconcile w2 reconciler req).1
         = Some (<[rackKey := "r12"]> {[zoneKey := ""]})
      /\ persisted (Some L2) (Main.Reconcile w2 reconciler req).1
         <> persisted (Some L2) (Plain.Reconcile w2 reconciler req).1).
Proof.
  cbv zeta. repeat split; try (vm_compute; reflexivity).
  - intros H. apply (f_equal (fun m => default ∅ m !! zoneKey)) in H.
    vm_compute in H. discriminate.
  - intros H. apply (f_equal (fun m => default ∅ m !! zoneKey)) in H.
    vm_compute in H. discriminate.
Qed.

(** ** The lookup key *)

Lemma containsDot_get (s : string) :
  containsDot s = false <-> forall n, String.get n s <> Some "."%char.
Proof.
  induction s as [|c s IH]; cbn.
  - split; [intros _ n; by destruct n | reflexivity].
  - rewrite orb_false_iff, IH. split.
    + intros [Hc Hs] [|n]; cbn; [|apply Hs].
      intros [= ->]. by rewrite Ascii.eqb_refl in Hc.
    + intros H. split.
      * destruct (Ascii.eqb_spec c "."); [|reflexivity]. subst c. by destruct (H 0%nat).
      * intros n. apply (H (S n)).
Qed.

Lemma index_dot_cons (c : ascii) (s : string) :
  String.index 0 "." (String c s)
  = if Ascii.eqb c "." then Some 0%nat else option_map S (String.index 0 "." s).
Proof.
  cbn [String.index String.prefix].
  destruct (ascii_dec "." c) as [<-|Hne].
  - cbn. by destruct s.
  - destruct (Ascii.eqb_spec c "."); [congruence|].
    by destruct (String.index 0 "." s).
Qed.

Lemma index_no_dot (s : string) :
  containsDot s = false -> String.index 0 "." s = None.
Proof.
  induction s as [|c s IH]; [reflexivity|].
  cbn [containsDot]. intros [Hc Hs]%orb_false_iff.
  by rewrite index_dot_cons, Hc, (IH Hs).
Qed.

Lemma index_first_dot (pre rest : string) :
  containsDot pre = false ->
  String.index 0 "." (pre +:+ "." +:+ rest) = Some (String.length pre).
Proof.
  induction pre as [|c pre IH].
  { intros _. change ("" +:+ "." +:+ rest) with (String "." rest).
    by rewrite index_dot_cons. }
  cbn [containsDot]. intros [Hc Hs]%orb_false_iff.
  change (String c pre +:+ "." +:+ rest) with (String c (pre +:+ "." +:+ rest)).
  by rewrite index_dot_cons, Hc, (IH Hs).
Qed.

Lemma substring_prefix (pre rest : string) :
  String.substring 0 (String.length pre) (pre +:+ rest) = pre.
Proof.
  induction pre as [|c pre IH]; simpl; [by destruct rest|]. by f_equal.
Qed.

(** Every identity is free of dots or splits at its first dot. *)
Lemma first_dot_split (s : string) :
  containsDot s = false
  \/ exists pre rest, s = pre +:+ "." +:+ rest /\ containsDot pre = false.
Proof.
  induction s as [|c s IH]; [by left|].
  cbn [containsDot]. destruct (Ascii.eqb_spec c ".") as [->|Hc]; cbn.
  - right. by exists "", s.
  - destruct IH as [->|(pre & rest & -> & Hp)]; [by left|].
    right. exists (String c pre), rest. split; [reflexivity|].
    cbn. destruct (Ascii.eqb_spec c "."); [congruence|done].
Qed.

(** The guard [dotIndex > 0] leaves an identity with a leading dot alone. *)
Lemma hostname_dot_first (rest : string) :
  Main.hostname ("." +:+ rest) = "." +:+ rest.
Proof.
  unfold Main.hostname, strings_Index.
  change ("." +:+ rest) with (String "." rest). by rewrite index_dot_cons.
Qed.

(** C8 (as amended), the lookup key of [src/main.go]: an identity without
    "." is its own key; an identity whose first "." comes after a non-empty
    prefix has that prefix as its key; an identity that starts with "." is
    its own key.  So "node1.cluster.local" yields "node1" and "node2" yields
    "node2". *)
Theorem hostname_first_dot (pre rest : string) :
  containsDot pre = false ->
  Main.hostname pre = pre
  /\ (pre <> "" -> Main.hostname (pre +:+ "." +:+ rest) = pre)
  /\ Main.hostname ("." +:+ rest) = "." +:+ rest
  /\ Main.hostname "node1.cluster.local" = "node1"
  /\ Main.hostname "node2" = "node2".
Proof.
  intros Hp. repeat split.
  - unfold Main.hostname, strings_Index. by rewrite (index_no_dot _ Hp).
  - intros Hne. unfold Main.hostname, strings_Index, slice_to.
    rewrite (index_first_dot _ _ Hp).
    destruct pre as [|c pre]; [done|].
    cbn [String.length]. rewrite Nat2Z.id.
    replace (Z.of_nat (S (String.length pre)) >? 0)%Z with true
      by (symmetry; apply Z.gtb_lt; lia).
    apply (substring_prefix (String c pre)).
  - apply hostname_dot_first.
Qed.

Lemma hostname_first_dot_witness :
  Main.hostname "node1" = "node1"
  /\ Main.hostname ("node1" +:+ "." +:+ "cluster.local") = "node1".
Proof.
  destruct (hostname_first_dot "node1" "cluster.local") as (H1 & H2 & _).
  - reflexivity.
  - split; [exact H1 | apply H2; discriminate].
Defined.

(** C8 as stated fails for an identity that starts with ".": the "." is
    present at index 0, the substring before it is empty, and the key is the
    whole identity. *)
Lemma hostname_leading_dot :
  strings_Index ".local" "." = 0
  /\ slice_to ".local" (strings_Index ".local" ".") = ""
  /\ Main.hostname ".local" = ".local"
  /\ Main.hostname ".local" <> slice_to ".local" (strings_Index ".local" ".").
Proof. vm_compute. repeat split. discriminate. Qed.

(** C10, the lookup key of [src/main.go] is never empty: a non-empty
    identity has a non-empty key, and if the identity starts with "." the key
    is the identity itself. *)
Theorem hostname_nonempty (nodeName : string) :
  nodeName <> "" ->
  Main.hostname nodeName <> ""
  /\ forall rest, nodeName = "." +:+ rest -> Main.hostname nodeName = nodeName.
Proof.
  intros Hne. split.
  - unfold Main.hostname, slice_to.
    destruct (strings_Index nodeName "." >? 0)%Z eqn:Hgt; [|assumption].
    apply Z.gtb_lt in Hgt.
    destruct nodeName as [|c s]; [done|].
    destruct (Z.to_nat (strings_Index (String c s) ".")) as [|m] eqn:Hm; [lia|].
    discriminate.
  - intros rest ->. apply hostname_dot_first.
Qed.

Lemma hostname_nonempty_witness :
  Main.hostname ".cluster.local" <> ""
  /\ Main.hostname ".cluster.local" = ".cluster.local".
Proof.
  destruct (hostname_nonempty ".cluster.local") as (H1 & H2).
  - discriminate.
  - split; [exact H1 | apply (H2 "cluster.local"); reflexivity].
Defined.

(** ** The status check *)

Lemma bind_trace {A B} (m : M A) (k : A -> M B) :
  (bind m k).1 = (m.1 ++ (k m.2).1)%list.
Proof. unfold bind. destruct m as [t a]. cbn. by destruct (k a). Qed.

Lemma queryDevice_status (w : World) (c : NautobotClient) (key nodeName : string)
    (req : Request) (resp : Response) :
  lookups (queryDevice w c key nodeName).1 = [req] ->
  Do w req = Ok resp ->
  queryDevice w c key nodeName
  = if negb (Z.eqb (StatusCode resp) 200)
    then ([EvHttpDo req], Fail (statusError (StatusCode resp)))
    else bind (emit (EvHttpDo req)) (fun _ => decodeDevice w nodeName resp).
Proof.
  unfold queryDevice, NewRequest.
  destruct (ParseURL w _); [discriminate|].
  set (sent := HeaderSet _ _ _).
  rewrite bind_trace. cbn [emit fst snd app lookups omap].
  intros [= <- _] HDo. rewrite HDo.
  by destruct (negb (Z.eqb (StatusCode resp) 200)).
Qed.

(** C9 (as amended), the status check of [src/main.go]: once the request has
    been sent and answered, the lookup fails with the status error carrying
    the response's code, without reading the body, when the code is not 200;
    and it fails with no status error when the code is 200. *)
Theorem status_check (w : World) (c : NautobotClient) (nodeName : string)
    (req : Request) (resp : Response) :
  lookups (Main.GetDeviceData w c nodeName).1 = [req] ->
  Do w req = Ok resp ->
  (StatusCode resp <> 200 ->
   (Main.GetDeviceData w c nodeName).2 = Fail (statusError (StatusCode resp))
   /\ bodyReads (Main.GetDeviceData w c nodeName).1 = [])
  /\ (StatusCode resp = 200 ->
      (forall code, (Main.GetDeviceData w c nodeName).2 <> Fail (statusError code))
      /\ bodyReads (Main.GetDeviceData w c nodeName).1 = [Body resp]).
Proof.
  intros Hreq HDo. unfold Main.GetDeviceData in *.
  rewrite (queryDevice_status w c _ nodeName req resp Hreq HDo).
  split; intros Hs.
  - apply Z.eqb_neq in Hs. rewrite Hs. by cbn.
  - rewrite Hs. cbn -[decodeDevice]. unfold decodeDevice. cbn.
    destruct (Decode w (Body resp)) as [dr|e]; [destruct (Results dr)|]; cbn;
      (split; [intros code; discriminate | reflexivity]).
Qed.

Lemma status_check_witness :
  let w := world "node2" None 503 "dc1" "r12" None in
  (Main.GetDeviceData w nautobot "node2").2 = Fail (statusError 503)
  /\ bodyReads (Main.GetDeviceData w nautobot "node2").1 = [].
Proof.
  intros w.
  refine (proj1 (status_check w nautobot "node2"
                   (mkRequest "GET" "http://nautobot.local/api/dcim/devices/?name=node2"
                      (<["Content-Type" := "application/json"]>
                         (<["Authorization" := "Token placeholder-token"]> ∅)))
                   (mkResponse 503 "{}") _ _) _).
  - reflexivity.
  - reflexivity.
  - discriminate.
Defined.

(** C9 as stated fails inside the 2xx range: a response with status 204
    produces the status error. *)
Lemma status_204_rejected :
  let w := world "node2" None 204 "dc1" "r12" None in
  (200 <= 204 < 300)%Z
  /\ (Main.GetDeviceData w nautobot "node2").2 = Fail (statusError 204).
Proof. vm_compute. repeat split; discriminate. Qed.

(** * Further properties of the two programs *)

(** ** The inventory client *)

Lemma queryDevice_rejected (w : World) (c : NautobotClient) (key nodeName : string) (e : error) :
  ParseURL w (lookupURL c key) = Some e ->
  queryDevice w c key nodeName
  = ([], Fail (Errorf "failed to create request to Nautobot: %w" (ArgW e))).
Proof.
  unfold queryDevice, NewRequest, lookupURL. by intros ->.
Qed.

Lemma queryDevice_sent (w : World) (c : NautobotClient) (key nodeName : string) :
  ParseURL w (lookupURL c key) = None ->
  lookups (queryDevice w c key nodeName).1
  = [mkRequest "GET" (lookupURL c key)
       (<["Content-Type" := "application/json"]>
          (<["Authorization" := "Token " +:+ authToken c]> ∅))].
Proof.
  unfold queryDevice, NewRequest, lookupURL. intros ->.
  rewrite bind_trace. cbn [emit fst snd app lookups omap].
  f_equal. destruct (Do w _) as [resp|e]; [|reflexivity].
  destruct (negb _); [reflexivity|].
  unfold decodeDevice. rewrite bind_trace. cbn.
  destruct (Decode w _) as [dr|e]; [destruct (Results dr)|]; reflexivity.
Qed.

Lemma queryDevice_transport (w : World) (c : NautobotClient) (key nodeName : string)
    (req : Request) (e : error) :
  lookups (queryDevice w c key nodeName).1 = [req] ->
  Do w req = Fail e ->
  queryDevice w c key nodeName
  = ([EvHttpDo req], Fail (Errorf "failed to contact Nautobot: %w" (ArgW e))).
Proof.
  unfold queryDevice, NewRequest.
  destruct (ParseURL w _); [discriminate|].
  set (sent := HeaderSet _ _ _).
  rewrite bind_trace. cbn [emit fst snd app lookups omap].
  intros [= <- _] HDo. by rewrite HDo.
Qed.

(** After an answer with status 200 the lookup is the decoding of the body. *)
Lemma queryDevice_decoded (w : World) (c : NautobotClient) (key nodeName : string)
    (req : Request) (resp : Response) :
  lookups (queryDevice w c key nodeName).1 = [req] ->
  Do w req = Ok resp ->
  StatusCode resp = 200 ->
  queryDevice w c key nodeName
  = ([EvHttpDo req; EvReadBody (Body resp)],
     match Decode w (Body resp) with
     | Fail e => Fail (Errorf "failed to parse Nautobot response: %w" (ArgW e))
     | Ok dr =>
       match Results dr with
       | [] => Fail (Errorf "no device found in Nautobot for node: %s" (ArgS nodeName))
       | r0 :: _ => Ok (mkDeviceData (nameOrDisplay (Site r0)) (nameOrDisplay (Rack r0)))
       end
     end).
Proof.
  intros Hreq HDo Hs.
  rewrite (queryDevice_status w c key nodeName req resp Hreq HDo), Hs.
  unfold decodeDevice. cbn.
  destruct (Decode w (Body resp)) as [dr|e]; [destruct (Results dr)|]; reflexivity.
Qed.

(** X1, the request of a lookup ([src/main.go], lines 62-78): a request that
    the lookup sends is a GET for [baseURL/api/dcim/devices/?name=key], the
    key being the identity cut at its first dot, and carries exactly the two
    headers [Authorization: Token <authToken>] and
    [Content-Type: application/json]; it is the only request of the lookup. *)
Theorem lookup_request_shape (w : World) (c : NautobotClient) (nodeName : string)
    (req : Request) :
  req ∈ lookups (Main.GetDeviceData w c nodeName).1 ->
  Method req = "GET"
  /\ URL req = baseURL c +:+ "/api/dcim/devices/?name=" +:+ Main.hostname nodeName
  /\ Header req !! "Authorization" = Some ("Token " +:+ authToken c)
  /\ Header req !! "Content-Type" = Some "application/json"
  /\ (forall k, k <> "Authorization" -> k <> "Content-Type" -> Header req !! k = None)
  /\ lookups (Main.GetDeviceData w c nodeName).1 = [req].
Proof.
  unfold Main.GetDeviceData. intros Hin.
  destruct (ParseURL w (lookupURL c (Main.hostname nodeName))) as [e|] eqn:HP.
  { rewrite (queryDevice_rejected _ _ _ _ _ HP) in Hin. by apply elem_of_nil in Hin. }
  rewrite (queryDevice_sent _ _ _ _ HP) in Hin |- *.
  apply list_elem_of_singleton in Hin. subst req. cbn [Method URL Header].
  split_and!; try reflexivity.
  intros k H1 H2. rewrite !lookup_insert_ne by congruence. apply lookup_empty.
Qed.

Lemma lookup_request_shape_witness :
  URL (mkRequest "GET" "http://nautobot.local/api/dcim/devices/?name=node1"
         (<["Content-Type" := "application/json"]>
            (<["Authorization" := "Token placeholder-token"]> ∅)))
  = "http://nautobot.local" +:+ "/api/dcim/devices/?name=" +:+ Main.hostname "node1.cluster.local".
Proof.
  refine (proj1 (proj2 (lookup_request_shape
                          (world "node1.cluster.local" None 200 "dc1" "r12" None) nautobot
                          "node1.cluster.local" _ _))).
  vm_compute. apply list_elem_of_singleton. reflexivity.
Defined.

(** X2, a URL that [http.NewRequest] rejects ([src/main.go], lines 71-74):
    the lookup fails with the rejection wrapped in "failed to create request
    to Nautobot", and nothing is sent to the inventory. *)
Theorem lookup_request_rejected (w : World) (c : NautobotClient) (nodeName : string)
    (e : error) :
  ParseURL w (baseURL c +:+ "/api/dcim/devices/?name=" +:+ Main.hostname nodeName) = Some e ->
  (Main.GetDeviceData w c nodeName).2
  = Fail (Errorf "failed to create request to Nautobot: %w" (ArgW e))
  /\ lookups (Main.GetDeviceData w c nodeName).1 = []
  /\ bodyReads (Main.GetDeviceData w c nodeName).1 = [].
Proof.
  intros HP. unfold Main.GetDeviceData.
  by rewrite (queryDevice_rejected w c _ nodeName e HP).
Qed.

Lemma lookup_request_rejected_witness :
  let w := constWorld (Fail ApiNotFound) None (Some (ApiError "invalid control character in URL"))
             (Ok (mkResponse 200 "{}")) (Ok (mkDeviceResponse [])) in
  lookups (Main.GetDeviceData w nautobot "node 2").1 = [].
Proof.
  intros w.
  refine (proj1 (proj2 (lookup_request_rejected w nautobot "node 2"
                          (ApiError "invalid control character in URL") _))).
  reflexivity.
Defined.

(** X3, a transport failure ([src/main.go], lines 78-81): when the HTTP
    client fails on the request that was sent, the lookup fails with that
    error wrapped in "failed to contact Nautobot" and reads no body. *)
Theorem lookup_transport_failure (w : World) (c : NautobotClient) (nodeName : string)
    (req : Request) (e : error) :
  lookups (Main.GetDeviceData w c nodeName).1 = [req] ->
  Do w req = Fail e ->
  (Main.GetDeviceData w c nodeName).2
  = Fail (Errorf "failed to contact Nautobot: %w" (ArgW e))
  /\ bodyReads (Main.GetDeviceData w c nodeName).1 = [].
Proof.
  unfold Main.GetDeviceData. intros Hreq HDo.
  by rewrite (queryDevice_transport w c _ nodeName req e Hreq HDo).
Qed.

Lemma lookup_transport_failure_witness :
  let w := constWorld (Fail ApiNotFound) None None (Fail (ApiError "dial tcp: timeout"))
             (Ok (mkDeviceResponse [])) in
  (Main.GetDeviceData w nautobot "node2").2
  = Fail (Errorf "failed to contact Nautobot: %w" (ArgW (ApiError "dial tcp: timeout"))).
Proof.
  intros w.
  refine (proj1 (lookup_transport_failure w nautobot "node2"
                   (mkRequest "GET" "http://nautobot.local/api/dcim/devices/?name=node2"
                      (<["Content-Type" := "application/json"]>
                         (<["Authorization" := "Token placeholder-token"]> ∅)))
                   (ApiError "dial tcp: timeout") _ _)).
  - reflexivity.
  - reflexivity.
Defined.

(** X4, a body that does not decode ([src/main.go], lines 88-91): after an
    answer with status 200 whose body the JSON decoder rejects, the lookup
    fails with the decoder's error wrapped in "failed to parse Nautobot
    response"; the body was read once. *)
Theorem lookup_decode_failure (w : World) (c : NautobotClient) (nodeName : string)
    (req : Request) (resp : Response) (e : error) :
  lookups (Main.GetDeviceData w c nodeName).1 = [req] ->
  Do w req = Ok resp ->
  StatusCode resp = 200 ->
  Decode w (Body resp) = Fail e ->
  (Main.GetDeviceData w c nodeName).2
  = Fail (Errorf "failed to parse Nautobot response: %w" (ArgW e))
  /\ bodyReads (Main.GetDeviceData w c nodeName).1 = [Body resp].
Proof.
  unfold Main.GetDeviceData. intros Hreq HDo Hs HDec.
  by rewrite (queryDevice_decoded w c _ nodeName req resp Hreq HDo Hs), HDec.
Qed.

Lemma lookup_decode_failure_witness :
  let w := constWorld (Fail ApiNotFound) None None (Ok (mkResponse 200 "<html>"))
             (Fail (ApiError "invalid character '<'")) in
  (Main.GetDeviceData w nautobot "node2").2
  = Fail (Errorf "failed to parse Nautobot response: %w"
            (ArgW (ApiError "invalid character '<'"))).
Proof.
  intros w.
  refine (proj1 (lookup_decode_failure w nautobot "node2"
                   (mkRequest "GET" "http://nautobot.local/api/dcim/devices/?name=node2"
                      (<["Content-Type" := "application/json"]>
                         (<["Authorization" := "Token placeholder-token"]> ∅)))
                   (mkResponse 200 "<html>") (ApiError "invalid character '<'") _ _ _ _));
    reflexivity.
Defined.

(** X5, no device ([src/main.go], lines 93-95): after an answer with status
    200 whose envelope has an empty result list, the lookup fails with "no
    device found in Nautobot for node" carrying the node identity as it was
    given, not the key that was queried. *)
Theorem lookup_no_device (w : World) (c : NautobotClient) (nodeName : string)
    (req : Request) (resp : Response) (dr : deviceResponse) :
  lookups (Main.GetDeviceData w c nodeName).1 = [req] ->
  Do w req = Ok resp ->
  StatusCode resp = 200 ->
  Decode w (Body resp) = Ok dr ->
  Results dr = [] ->
  (Main.GetDeviceData w c nodeName).2
  = Fail (Errorf "no device found in Nautobot for node: %s" (ArgS nodeName)).
Proof.
  unfold Main.GetDeviceData. intros Hreq HDo Hs HDec Hres.
  by rewrite (queryDevice_decoded w c _ nodeName req resp Hreq HDo Hs), HDec, Hres.
Qed.

Lemma lookup_no_device_witness :
  let w := constWorld (Fail ApiNotFound) None None (Ok (mkResponse 200 "{}"))
             (Ok (mkDeviceResponse [])) in
  (Main.GetDeviceData w nautobot "node1.cluster.local").2
  = Fail (Errorf "no device found in Nautobot for node: %s" (ArgS "node1.cluster.local")).
Proof.
  intros w.
  refine (lookup_no_device w nautobot "node1.cluster.local"
            (mkRequest "GET" "http://nautobot.local/api/dcim/devices/?name=node1"
               (<["Content-Type" := "application/json"]>
                  (<["Authorization" := "Token placeholder-token"]> ∅)))
            (mkResponse 200 "{}") (mkDeviceResponse []) _ _ _ _ _);
    reflexivity.
Defined.

(** X6, name with display as fallback ([src/main.go], lines 97-112): after an
    answer with status 200 whose envelope has at least one result, the lookup
    succeeds, whatever the fields hold; the site name is the first result's
    [site.name] unless that is empty, in which case it is [site.display], and
    the same for the rack; the results after the first are ignored. *)
Theorem lookup_fallback (w : World) (c : NautobotClient) (nodeName : string)
    (req : Request) (resp : Response) (dr : deviceResponse)
    (r0 : deviceResult) (others : list deviceResult) :
  lookups (Main.GetDeviceData w c nodeName).1 = [req] ->
  Do w req = Ok resp ->
  StatusCode resp = 200 ->
  Decode w (Body resp) = Ok dr ->
  Results dr = r0 :: others ->
  exists d, (Main.GetDeviceData w c nodeName).2 = Ok d
    /\ (Name (Site r0) <> "" -> SiteName d = Name (Site r0))
    /\ (Name (Site r0) = "" -> SiteName d = Display (Site r0))
    /\ (Name (Rack r0) <> "" -> RackName d = Name (Rack r0))
    /\ (Name (Rack r0) = "" -> RackName d = Display (Rack r0)).
Proof.
  unfold Main.GetDeviceData. intros Hreq HDo Hs HDec Hres.
  rewrite (queryDevice_decoded w c _ nodeName req resp Hreq HDo Hs), HDec, Hres.
  eexists. split; [reflexivity|]. cbn [SiteName RackName]. unfold nameOrDisplay.
  destruct (String.eqb_spec (Name (Site r0)) ""), (String.eqb_spec (Name (Rack r0)) "");
    split_and!; intros; congruence.
Qed.

Lemma lookup_fallback_witness :
  let r0 := mkDeviceResult (mkNamedRef "SiteA" "") (mkNamedRef "" "R1") in
  let r1 := mkDeviceResult (mkNamedRef "SiteB" "site-b") (mkNamedRef "R2" "r2") in
  let w := constWorld (Fail ApiNotFound) None None (Ok (mkResponse 200 "{}"))
             (Ok (mkDeviceResponse [r0; r1])) in
  exists d, (Main.GetDeviceData w nautobot "node2").2 = Ok d
    /\ (Name (Site r0) <> "" -> SiteName d = Name (Site r0))
    /\ (Name (Site r0) = "" -> SiteName d = Display (Site r0))
    /\ (Name (Rack r0) <> "" -> RackName d = Name (Rack r0))
    /\ (Name (Rack r0) = "" -> RackName d = Display (Rack r0)).
Proof.
  intros r0 r1 w.
  refine (lookup_fallback w nautobot "node2"
            (mkRequest "GET" "http://nautobot.local/api/dcim/devices/?name=node2"
               (<["Content-Type" := "application/json"]>
                  (<["Authorization" := "Token placeholder-token"]> ∅)))
            (mkResponse 200 "{}") (mkDeviceResponse [r0; r1]) r0 [r1] _ _ _ _ _);
    reflexivity.
Defined.

(** X7, when a lookup succeeds ([src/main.go], lines 60-113): exactly when a
    request was sent, the HTTP client answered it with status 200, the body
    decoded, and the result list is not empty. *)
Theorem lookup_succeeds_iff (w : World) (c : NautobotClient) (nodeName : string) :
  (exists d, (Main.GetDeviceData w c nodeName).2 = Ok d)
  <-> exists req resp dr,
        lookups (Main.GetDeviceData w c nodeName).1 = [req]
        /\ Do w req = Ok resp
        /\ StatusCode resp = 200
        /\ Decode w (Body resp) = Ok dr
        /\ Results dr <> [].
Proof.
  unfold Main.GetDeviceData. set (key := Main.hostname nodeName). split.
  - intros [d Hd].
    destruct (ParseURL w (lookupURL c key)) as [e|] eqn:HP.
    { by rewrite (queryDevice_rejected w c key nodeName e HP) in Hd. }
    pose proof (queryDevice_sent w c key nodeName HP) as Hreq.
    set (req := mkRequest _ _ _) in Hreq.
    destruct (Do w req) as [resp|e] eqn:HDo.
    2:{ by rewrite (queryDevice_transport w c key nodeName req e Hreq HDo) in Hd. }
    destruct (Z.eqb_spec (StatusCode resp) 200) as [Hs|Hs].
    2:{ rewrite (queryDevice_status w c key nodeName req resp Hreq HDo) in Hd.
        apply Z.eqb_neq in Hs. by rewrite Hs in Hd. }
    rewrite (queryDevice_decoded w c key nodeName req resp Hreq HDo Hs) in Hd.
    cbn in Hd. destruct (Decode w (Body resp)) as [dr|e] eqn:HDec; [|discriminate].
    exists req, resp, dr. split_and!; try done.
    intros Hres. by rewrite Hres in Hd.
  - intros (req & resp & dr & Hreq & HDo & Hs & HDec & Hres).
    rewrite (queryDevice_decoded w c key nodeName req resp Hreq HDo Hs), HDec.
    destruct (Results dr) as [|r0 rest]; [done|]. by eexists.
Qed.

Lemma queryDevice_effects (w : World) (c : NautobotClient) (key nodeName : string) :
  let t := (queryDevice w c key nodeName).1 in
  writes t = [] /\ loggedErrors t = []
  /\ (List.length (lookups t) <= 1)%nat
  /\ (List.length (bodyReads t) <= List.length (lookups t))%nat.
Proof.
  unfold queryDevice, decodeDevice, NewRequest.
  destruct (ParseURL w _); [cbn; split_and!; (reflexivity || lia)|].
  cbn. destruct (Do w _) as [resp|e]; [|cbn; split_and!; (reflexivity || lia)].
  destruct (negb _); [cbn; split_and!; (reflexivity || lia)|].
  cbn. destruct (Decode w _) as [dr|e]; [destruct (Results dr)|];
    cbn; split_and!; (reflexivity || lia).
Qed.



(** ** The lookup key, continued *)

Lemma hostname_cases (s : string) :
  (containsDot s = false /\ Main.hostname s = s)
  \/ (exists rest, s = "." +:+ rest /\ Main.hostname s = s)
  \/ (exists pre rest, s = pre +:+ "." +:+ rest /\ pre <> "" /\ containsDot pre = false
                       /\ Main.hostname s = pre).
Proof.
  destruct (first_dot_split s) as [Hs | (pre & rest & -> & Hp)].
  - left. split; [assumption|]. unfold Main.hostname, strings_Index.
    by rewrite (index_no_dot _ Hs).
  - destruct pre as [|c pre].
    + right. left. exists rest. split; [reflexivity|]. apply hostname_dot_first.
    + right. right. exists (String c pre), rest. split_and!; try done.
      unfold Main.hostname, strings_Index, slice_to.
      rewrite (index_first_dot _ _ Hp). cbn [String.length]. rewrite Nat2Z.id.
      replace (Z.of_nat (S (String.length pre)) >? 0)%Z with true
        by (symmetry; apply Z.gtb_lt; lia).
      apply (substring_prefix (String c pre)).
Qed.

Lemma append_empty (s : string) : s +:+ "" = s.
Proof.
  induction s as [|c s IH]; [reflexivity|].
  change (String c s +:+ "") with (String c (s +:+ "")). by rewrite IH.
Qed.

Lemma length_append_ge (s rest : string) :
  (String.length s <= String.length (s +:+ rest))%nat.
Proof.
  induction s as [|c s IH]; [cbn; lia|].
  change (String c s +:+ rest) with (String c (s +:+ rest)). cbn [String.length]. lia.
Qed.

(** X9, the lookup key is a prefix of the identity ([src/main.go], lines
    62-65), hence never longer than it. *)
Theorem hostname_prefix (nodeName : string) :
  (exists rest, nodeName = Main.hostname nodeName +:+ rest)
  /\ (String.length (Main.hostname nodeName) <= String.length nodeName)%nat.
Proof.
  assert (H : exists rest, nodeName = Main.hostname nodeName +:+ rest).
  { destruct (hostname_cases nodeName)
      as [[_ ->] | [(rest & _ & ->) | (pre & rest & Hs & _ & _ & ->)]].
    - exists "". by rewrite append_empty.
    - exists "". by rewrite append_empty.
    - by exists ("." +:+ rest). }
  split; [exact H|]. destruct H as [rest H].
  rewrite H at 2. apply length_append_ge.
Qed.

(** X10, deriving the key is idempotent ([src/main.go], lines 62-65): the key
    of a key is that key. *)
Theorem hostname_idempotent (nodeName : string) :
  Main.hostname (Main.hostname nodeName) = Main.hostname nodeName.
Proof.
  destruct (hostname_cases nodeName)
    as [[_ H] | [(rest & _ & H) | (pre & rest & _ & _ & Hp & H)]].
  - by rewrite !H.
  - by rewrite !H.
  - rewrite H. unfold Main.hostname, strings_Index. by rewrite (index_no_dot _ Hp).
Qed.

(** X11, the key holds no dot ([src/main.go], lines 62-65), unless the
    identity starts with one. *)
Theorem hostname_dot_free (nodeName : string) :
  (forall rest, nodeName <> "." +:+ rest) ->
  containsDot (Main.hostname nodeName) = false.
Proof.
  intros Hlead.
  destruct (hostname_cases nodeName)
    as [[Hs ->] | [(rest & Hs & _) | (pre & rest & _ & _ & Hp & ->)]]; try assumption.
  by destruct (Hlead rest).
Qed.

Lemma hostname_dot_free_witness :
  containsDot (Main.hostname "node1.cluster.local") = false.
Proof.
  apply (hostname_dot_free "node1.cluster.local"). intros rest. discriminate.
Defined.

(** X12, the two programs query the same device for an identity without dots
    ([src/main.go], lines 60-69; [src/unnamed/part_001], lines 58-61): their
    lookups are then the same computation, request and result. *)
Theorem variants_same_lookup (w : World) (c : NautobotClient) (nodeName : string) :
  containsDot nodeName = false ->
  Main.GetDeviceData w c nodeName = Plain.GetDeviceData w c nodeName.
Proof.
  intros Hs. unfold Main.GetDeviceData, Plain.GetDeviceData, Main.hostname, strings_Index.
  by rewrite (index_no_dot _ Hs).
Qed.

Lemma variants_same_lookup_witness :
  Main.GetDeviceData (world "node2" None 200 "dc1" "r12" None) nautobot "node2"
  = Plain.GetDeviceData (world "node2" None 200 "dc1" "r12" None) nautobot "node2".
Proof.
  apply (variants_same_lookup (world "node2" None 200 "dc1" "r12" None) nautobot "node2").
  reflexivity.
Defined.

(** ** The label update, continued *)

(** Reading a key bound to a given value. *)
Lemma getLabel_insert (m : gmap string string) (k v : string) :
  getLabel (<[k := v]> m) k = v.
Proof. unfold getLabel. by rewrite lookup_insert_eq. Qed.

Lemma getLabel_insert_ne (m : gmap string string) (k k' v : string) :
  k <> k' -> getLabel (<[k := v]> m) k' = getLabel m k'.
Proof. intros H. unfold getLabel. by rewrite lookup_insert_ne. Qed.

Lemma getLabel_Some (m : gmap string string) (k v : string) :
  v <> "" -> getLabel m k = v -> m !! k = Some v.
Proof. unfold getLabel. destruct (m !! k); cbn; congruence. Qed.

(** The guarded update in closed form. *)
Lemma main_updateLabels_eq (l : option (gmap string string)) (d : NautobotDeviceData) :
  let L := default ∅ l in
  let z := negb (String.eqb (SiteName d) "")
           && negb (String.eqb (getLabel L zoneKey) (SiteName d)) in
  let r := negb (String.eqb (RackName d) "")
           && negb (String.eqb (getLabel L rackKey) (RackName d)) in
  Main.updateLabels l d
  = mkLabelState
      ((if r then <[rackKey := RackName d]> else id)
         ((if z then <[zoneKey := SiteName d]> else id) L))
      (z || r)
      ((if z then [(zoneKey, SiteName d)] else [])
         ++ (if r then [(rackKey, RackName d)] else []))%list.
Proof.
  intros L z r. unfold Main.updateLabels, initLabels. fold L. cbn [labels]. fold z.
  destruct z; cbn [assign labels updated assigned app].
  - rewrite getLabel_insert_ne by discriminate. fold r. by destruct r.
  - fold r. by destruct r.
Qed.

Lemma plain_updateLabels_eq (l : option (gmap string string)) (d : NautobotDeviceData) :
  let L := default ∅ l in
  let z := negb (String.eqb (getLabel L zoneKey) (SiteName d)) in
  let r := negb (String.eqb (getLabel L rackKey) (RackName d)) in
  Plain.updateLabels l d
  = mkLabelState
      ((if r then <[rackKey := RackName d]> else id)
         ((if z then <[zoneKey := SiteName d]> else id) L))
      (z || r)
      ((if z then [(zoneKey, SiteName d)] else [])
         ++ (if r then [(rackKey, RackName d)] else []))%list.
Proof.
  intros L z r. unfold Plain.updateLabels, initLabels. fold L. cbn [labels]. fold z.
  destruct z; cbn [assign labels updated assigned app].
  - rewrite getLabel_insert_ne by discriminate. fold r. by destruct r.
  - fold r. by destruct r.
Qed.

(** When the guarded update has nothing to do. *)
Lemma main_noop_iff (l : option (gmap string string)) (d : NautobotDeviceData) :
  updated (Main.updateLabels l d) = false
  <-> (SiteName d = "" \/ getLabel (default ∅ l) zoneKey = SiteName d)
      /\ (RackName d = "" \/ getLabel (default ∅ l) rackKey = RackName d).
Proof.
  rewrite main_updateLabels_eq. cbn [updated].
  destruct (String.eqb_spec (SiteName d) ""),
    (String.eqb_spec (getLabel (default ∅ l) zoneKey) (SiteName d)),
    (String.eqb_spec (RackName d) ""),
    (String.eqb_spec (getLabel (default ∅ l) rackKey) (RackName d));
    cbn; split; intros; try discriminate; try tauto.
Qed.

(** The label values after the guarded update. *)
Lemma main_values (l : option (gmap string string)) (d : NautobotDeviceData) :
  (SiteName d <> "" -> getLabel (labels (Main.updateLabels l d)) zoneKey = SiteName d)
  /\ (RackName d <> "" -> getLabel (labels (Main.updateLabels l d)) rackKey = RackName d).
Proof.
  rewrite main_updateLabels_eq. cbn [labels].
  destruct (String.eqb_spec (SiteName d) ""),
    (String.eqb_spec (getLabel (default ∅ l) zoneKey) (SiteName d)),
    (String.eqb_spec (RackName d) ""),
    (String.eqb_spec (getLabel (default ∅ l) rackKey) (RackName d));
    cbn; split; intros; try congruence;
    rewrite ?getLabel_insert, ?getLabel_insert_ne, ?getLabel_insert by discriminate;
    congruence.
Qed.

Lemma main_step_idem (l : option (gmap string string)) (d : NautobotDeviceData) :
  Main.updateLabels (Some (labels (Main.updateLabels l d))) d
  = mkLabelState (labels (Main.updateLabels l d)) false [].
Proof.
  destruct (main_values l d) as [Hz Hr].
  rewrite (main_updateLabels_eq (Some _) d). cbn [default from_option id].
  destruct (String.eqb_spec (SiteName d) "") as [|Hs]; cbn [negb andb].
  - destruct (String.eqb_spec (RackName d) "") as [|Hk]; cbn [negb andb]; [done|].
    by rewrite (Hr Hk), String.eqb_refl.
  - rewrite (Hz Hs), String.eqb_refl. cbn [negb andb].
    destruct (String.eqb_spec (RackName d) "") as [|Hk]; cbn [negb andb]; [done|].
    by rewrite (Hr Hk), String.eqb_refl.
Qed.

Lemma plain_step_idem (l : option (gmap string string)) (d : NautobotDeviceData) :
  Plain.updateLabels (Some (labels (Plain.updateLabels l d))) d
  = mkLabelState (labels (Plain.updateLabels l d)) false [].
Proof.
  destruct (plain_mirrors l d) as [Hz Hr].
  rewrite (plain_updateLabels_eq (Some _) d). cbn [default from_option id].
  by rewrite Hz, Hr, !String.eqb_refl.
Qed.

(** X13, the label update is idempotent (both programs; [src/main.go], lines
    150-165, [src/unnamed/part_001], lines 135-150): applied to its own result
    with the same device record, whatever the record holds, it executes no
    assignment and leaves [updated] false. *)
Theorem updateLabels_idempotent (l : option (gmap string string)) (d : NautobotDeviceData) :
  Main.updateLabels (Some (labels (Main.updateLabels l d))) d
  = mkLabelState (labels (Main.updateLabels l d)) false []
  /\ Plain.updateLabels (Some (labels (Plain.updateLabels l d))) d
     = mkLabelState (labels (Plain.updateLabels l d)) false [].
Proof.
  split; [apply main_step_idem | apply plain_step_idem].
Qed.

(** X14, the values after the guarded update ([src/main.go], lines 156-165):
    under each managed key the label is the record's value when that value is
    not empty, and is what it was (bound or absent) when the value is empty. *)
Theorem main_update_values (l : option (gmap string string)) (d : NautobotDeviceData)
    (k v : string) :
  (k = zoneKey /\ v = SiteName d) \/ (k = rackKey /\ v = RackName d) ->
  (v <> "" -> labels (Main.updateLabels l d) !! k = Some v)
  /\ (v = "" -> labels (Main.updateLabels l d) !! k = default ∅ l !! k).
Proof.
  destruct (main_values l d) as [Hz Hr].
  intros [[-> ->] | [-> ->]]; split; intros Hv.
  - by apply getLabel_Some; auto.
  - clear -Hv. rewrite main_updateLabels_eq. cbn [labels].
    destruct (String.eqb_spec (SiteName d) ""); [|done]. cbn.
    destruct (_ && _); cbn; [|done]. by rewrite lookup_insert_ne by discriminate.
  - by apply getLabel_Some; auto.
  - clear -Hv. rewrite main_updateLabels_eq. cbn [labels].
    destruct (String.eqb_spec (RackName d) ""); [|done]. cbn.
    destruct (_ && _); cbn; [|done]. by rewrite lookup_insert_ne by discriminate.
Qed.

Lemma main_update_values_witness :
  labels (Main.updateLabels (Some {[zoneKey := "dc1"]}) (mkDeviceData "" "r12")) !! rackKey
  = Some "r12".
Proof.
  refine (proj1 (main_update_values (Some {[zoneKey := "dc1"]}) (mkDeviceData "" "r12")
                   rackKey "r12" _) _).
  - right. split; reflexivity.
  - discriminate.
Defined.

Lemma step_changes (L : gmap string string) (z r : bool) (site rack : string) :
  (z = true -> getLabel L zoneKey <> site) ->
  (r = true -> getLabel L rackKey <> rack) ->
  z || r = true
  <-> (if r then <[rackKey := rack]> else id) ((if z then <[zoneKey := site]> else id) L) <> L.
Proof.
  intros Hz Hr. destruct z, r; cbn; split; try done; intros _ Heq.
  - apply (Hz eq_refl). unfold getLabel. rewrite <- Heq.
    by rewrite lookup_insert_ne, lookup_insert_eq by discriminate.
  - apply (Hz eq_refl). unfold getLabel. rewrite <- Heq. by rewrite lookup_insert_eq.
  - apply (Hr eq_refl). unfold getLabel. rewrite <- Heq. by rewrite lookup_insert_eq.
Qed.

(** X15, the flag [updated] is accurate (both programs; [src/main.go], lines
    151-165, [src/unnamed/part_001], lines 136-150): it is true after the
    label update exactly when the label map is no longer the one the node
    came with (the nil map counting as empty), so an update is submitted
    exactly when it changes something. *)
Theorem updated_flag_accurate (l : option (gmap string string)) (d : NautobotDeviceData) :
  (updated (Main.updateLabels l d) = true <-> labels (Main.updateLabels l d) <> default ∅ l)
  /\ (updated (Plain.updateLabels l d) = true
      <-> labels (Plain.updateLabels l d) <> default ∅ l).
Proof.
  split.
  - rewrite main_updateLabels_eq. cbn [updated labels]. apply step_changes.
    + intros [_ H]%andb_prop. apply negb_true_iff in H. by apply String.eqb_neq.
    + intros [_ H]%andb_prop. apply negb_true_iff in H. by apply String.eqb_neq.
  - rewrite plain_updateLabels_eq. cbn [updated labels]. apply step_changes.
    + intros H. apply negb_true_iff in H. by apply String.eqb_neq.
    + intros H. apply negb_true_iff in H. by apply String.eqb_neq.
Qed.

(** ** The reconcile outcome, continued *)

Lemma lookup_trace_facts (w : World) (c : NautobotClient) (key nodeName : string)
    (t : list Event) (x : res NautobotDeviceData) :
  queryDevice w c key nodeName = (t, x) ->
  writes t = [] /\ loggedErrors t = [] /\ outcomeUpdated t = false
  /\ (forall l, persisted l t = l)
  /\ (List.length (lookups t) <= 1)%nat.
Proof.
  intros HD.
  pose proof (queryDevice_effects w c key nodeName) as (Hw & Hl & Hn & _).
  pose proof (queryDevice_quiet w c key nodeName) as Hq.
  rewrite HD in Hw, Hl, Hn, Hq. cbn [fst] in *.
  destruct (quiet_trace t Hq) as (_ & Hu & Hp). auto.
Qed.

(** Every way through [Main.Reconcile]. *)
Lemma main_cases (w : World) (r : NodeReconciler) (req : ctrlRequest) :
  let pre := [EvLogInfo "Reconciling Node"; EvGet (ReqName req)] in
  (exists e, Get w (ReqName req) = Fail e
             /\ Main.Reconcile w r req = (pre, (mkResult 0, IgnoreNotFound e)))
  \/ exists node, Get w (ReqName req) = Ok node
     /\ ((Main.hasAllLabels node = true
          /\ Main.Reconcile w r req
             = ([EvLogInfo "Reconciling Node"; EvGet (ReqName req);
                 EvLogInfo "Node already has all required labels"],
                (mkResult (12 * Hour), None)))
         \/ (Main.hasAllLabels node = false
             /\ exists t x, Main.GetDeviceData w (Nautobot r) (NodeName node) = (t, x)
                /\ match x with
                   | Fail err =>
                     Main.Reconcile w r req
                     = (pre ++ t ++ [EvLogError err "Failed to get device data from Nautobot"],
                        (mkResult (5 * Minute), None))%list
                   | Ok d =>
                     let s := Main.updateLabels (Labels node) d in
                     let node' := mkNode (NodeName node) (Some (labels s)) in
                     if updated s then
                       match Update w node' with
                       | Some err =>
                         Main.Reconcile w r req
                         = (pre ++ t ++ [EvLogInfo "Updating node labels";
                                         EvUpdate node' (Some err);
                                         EvLogError err "Failed to update node labels"],
                            (mkResult (1 * Minute), Some err))%list
                       | None =>
                         Main.Reconcile w r req
                         = (pre ++ t ++ [EvLogInfo "Updating node labels";
                                         EvUpdate node' None],
                            (mkResult (1 * Hour), None))%list
                       end
                     else
                       Main.Reconcile w r req
                       = (pre ++ t ++ [EvLogInfo "No label updates needed"],
                          (mkResult (6 * Hour), None))%list
                   end)).
Proof.
  intros pre.
  destruct (Get w (ReqName req)) as [node|e] eqn:HG.
  2:{ left. exists e. split; [reflexivity|]. unfold Main.Reconcile. by rewrite HG. }
  right. exists node. split; [reflexivity|].
  destruct (Main.hasAllLabels node) eqn:HA.
  { left. split; [reflexivity|]. by apply (main_run_skip w r req node HG). }
  right. split; [reflexivity|].
  destruct (Main.GetDeviceData w (Nautobot r) (NodeName node)) as [t x] eqn:HD.
  exists t, x. split; [reflexivity|].
  destruct x as [d|err].
  - cbn zeta. destruct (updated (Main.updateLabels (Labels node) d)) eqn:HU.
    + pose proof (main_run_write w r req node HG t d HA HD HU) as Hrun.
      cbn zeta in Hrun. by destruct (Update w _).
    + by apply (main_run_unchanged w r req node HG t d).
  - by apply (main_run_lookup_failed w r req node HG t err).
Qed.

(** Every way through [Plain.Reconcile]. *)
Lemma plain_cases (w : World) (r : NodeReconciler) (req : ctrlRequest) :
  (exists e, Get w (ReqName req) = Fail e
             /\ Plain.Reconcile w r req
                = ([EvGet (ReqName req)], (mkResult 0, IgnoreNotFound e)))
  \/ exists node t x, Get w (ReqName req) = Ok node
     /\ Plain.GetDeviceData w (Nautobot r) (NodeName node) = (t, x)
     /\ let pre := [EvGet (ReqName req); EvLogInfo "Reconciling Node"] in
        match x with
        | Fail err =>
          Plain.Reconcile w r req
          = (pre ++ t ++ [EvLogError err "Failed to get device data from Nautobot"],
             (mkResult 0, Some err))%list
        | Ok d =>
          let s := Plain.updateLabels (Labels node) d in
          let node' := mkNode (NodeName node) (Some (labels s)) in
          if updated s then
            Plain.Reconcile w r req
            = (pre ++ t ++ [EvLogInfo "Updating node labels";
                            EvUpdate node' (Update w node')],
               (mkResult 0,
                match Update w node' with
                | Some err => Some (Errorf "failed to update node labels: %w" (ArgW err))
                | None => None
                end))%list
          else Plain.Reconcile w r req = (pre ++ t, (mkResult 0, None))%list
        end.
Proof.
  destruct (Get w (ReqName req)) as [node|e] eqn:HG.
  2:{ left. exists e. split; [reflexivity|]. unfold Plain.Reconcile. by rewrite HG. }
  right.
  destruct (Plain.GetDeviceData w (Nautobot r) (NodeName node)) as [t x] eqn:HD.
  exists node, t, x. split; [reflexivity|]. split; [exact HD|].
  unfold Plain.Reconcile. rewrite HG. cbn -[Plain.updateLabels].
  rewrite HD. destruct x as [d|err]; cbn -[Plain.updateLabels].
  - destruct (updated (Plain.updateLabels (Labels node) d)); cbn -[Plain.updateLabels].
    + by destruct (Update w _).
    + by rewrite app_nil_r.
  - reflexivity.
Qed.

(** Case analysis on an invocation of [Main.Reconcile]: failed fetch, short
    circuit, failed lookup, rejected update, accepted update, nothing to do. *)
Ltac main_run w r req :=
  let x := fresh "x" in
  destruct (main_cases w r req)
    as [(?e & ?HG & ?Hrun)
       | (?node & ?HG & [(?HA & ?Hrun) | (?HA & ?t & x & ?HD & ?Hrun)])];
  [ | | destruct x as [?d | ?err]; cbn zeta in *;
        [ destruct (updated (Main.updateLabels _ _)) eqn:?HU;
          [ destruct (Update w _) as [?uerr|] eqn:?HUp | ] | ];
        match goal with
        | H : Main.GetDeviceData _ _ _ = (_, _) |- _ =>
          let F := fresh "Hfacts" in
          pose proof (lookup_trace_facts _ _ _ _ _ _ H) as F;
          destruct F as (?Hw & ?Hl & ?Hu & ?Hp & ?Hn)
        end ].

Ltac plain_run w r req :=
  let x := fresh "x" in
  destruct (plain_cases w r req)
    as [(?e & ?HG & ?Hrun) | (?node & ?t & x & ?HG & ?HD & ?Hrun)];
  [ | destruct x as [?d | ?err]; cbn zeta in *;
      [ destruct (updated (Plain.updateLabels _ _)) eqn:?HU | ];
      match goal with
      | H : Plain.GetDeviceData _ _ _ = (_, _) |- _ =>
        let F := fresh "Hfacts" in
        pose proof (lookup_trace_facts _ _ _ _ _ _ H) as F;
        destruct F as (?Hw & ?Hl & ?Hu & ?Hp & ?Hn)
      end ].

(** Observations of a trace built by appending. *)
Ltac observe :=
  cbn [fst snd];
  rewrite ?writes_app, ?lookups_app, ?loggedErrors_app, ?outcomeUpdated_app, ?persisted_app.

(** X16, a node that cannot be fetched (both programs; [src/main.go], lines
    127-132, [src/unnamed/part_001], lines 118-123): the invocation ends at
    once, with no inventory request and no update, no requeue delay, and a nil
    error when the node was not found, the error of the fetch otherwise. *)
Theorem reconcile_get_failure (w : World) (r : NodeReconciler) (req : ctrlRequest) (e : error) :
  Get w (ReqName req) = Fail e ->
  (Main.Reconcile w r req).2 = (mkResult 0, if IsNotFound e then None else Some e)
  /\ (Plain.Reconcile w r req).2 = (mkResult 0, if IsNotFound e then None else Some e)
  /\ lookups (Main.Reconcile w r req).1 = [] /\ writes (Main.Reconcile w r req).1 = []
  /\ lookups (Plain.Reconcile w r req).1 = [] /\ writes (Plain.Reconcile w r req).1 = [].
Proof.
  intros HG. unfold Main.Reconcile, Plain.Reconcile. rewrite HG. by cbn.
Qed.

Lemma reconcile_get_failure_witness :
  (Main.Reconcile (world "node2" None 200 "dc1" "r12" None) reconciler
     (mkCtrlRequest "gone")).2 = (mkResult 0, None).
Proof.
  refine (proj1 (reconcile_get_failure (world "node2" None 200 "dc1" "r12" None) reconciler
                   (mkCtrlRequest "gone") ApiNotFound _)).
  reflexivity.
Defined.

(** X17, when [src/main.go] writes (lines 150-179): on a node that is not
    fully labelled and after a successful lookup, no update is submitted
    exactly when each field of the record is empty or equal to the node's
    label; the invocation then returns a requeue after six hours
    (21600000000000 ns) with no error and logs no error. *)
Theorem main_write_decision (w : World) (r : NodeReconciler) (req : ctrlRequest)
    (node : Node) (d : NautobotDeviceData) :
  Get w (ReqName req) = Ok node ->
  Main.hasAllLabels node = false ->
  (Main.GetDeviceData w (Nautobot r) (NodeName node)).2 = Ok d ->
  let L := default ∅ (Labels node) in
  let run := Main.Reconcile w r req in
  (writes run.1 = []
   <-> (SiteName d = "" \/ getLabel L zoneKey = SiteName d)
       /\ (RackName d = "" \/ getLabel L rackKey = RackName d))
  /\ (writes run.1 = [] ->
      run.2 = (mkResult 21600000000000, None) /\ loggedErrors run.1 = []).
Proof.
  intros HG HA HD L run.
  destruct (main_effect w r req node d HG HA HD) as [Hw _]. fold run in Hw.
  destruct (Main.GetDeviceData w (Nautobot r) (NodeName node)) as [t x] eqn:HD'.
  cbn in HD. subst x.
  destruct (lookup_trace_facts _ _ _ _ _ _ HD') as (_ & Hl & _).
  subst L. rewrite <- (main_noop_iff (Labels node) d).
  destruct (updated (Main.updateLabels (Labels node) d)) eqn:HU; rewrite Hw.
  - split; [split; discriminate | discriminate].
  - split; [done|]. intros _. subst run.
    rewrite (main_run_unchanged w r req node HG t d HA HD' HU). observe.
    by rewrite Hl.
Qed.

Lemma main_write_decision_witness :
  let w := world "node2" (Some {[zoneKey := "dc1"]}) 200 "dc1" "" None in
  writes (Main.Reconcile w reconciler (mkCtrlRequest "node2")).1 = []
  /\ (Main.Reconcile w reconciler (mkCtrlRequest "node2")).2 = (mkResult (6 * Hour), None).
Proof.
  intros w.
  destruct (main_write_decision w reconciler (mkCtrlRequest "node2")
              (mkNode "node2" (Some {[zoneKey := "dc1"]})) (mkDeviceData "dc1" ""))
    as [H1 H2].
  - reflexivity.
  - reflexivity.
  - reflexivity.
  - assert (Hw : writes (Main.Reconcile w reconciler (mkCtrlRequest "node2")).1 = []).
    { apply H1. split; [right|left]; reflexivity. }
    split; [exact Hw | exact (proj1 (H2 Hw))].
Defined.

(** X18, what an update leads to ([src/main.go], lines 167-175): when an
    invocation submits an update and the object store accepts it, the result
    is a requeue after one hour with no error and the store holds the
    submitted labels; when the store rejects it, the result is a requeue after
    one minute with the store's error, which is also logged, and the store
    holds what it held. *)
Theorem main_write_outcome (w : World) (r : NodeReconciler) (req : ctrlRequest)
    (node n : Node) :
  Get w (ReqName req) = Ok node ->
  n ∈ writes (Main.Reconcile w r req).1 ->
  let run := Main.Reconcile w r req in
  (Update w n = None ->
   run.2 = (mkResult 3600000000000, None) /\ loggedErrors run.1 = []
   /\ persisted (Labels node) run.1 = Labels n)
  /\ (forall err, Update w n = Some err ->
      run.2 = (mkResult 60000000000, Some err) /\ loggedErrors run.1 = [err]
      /\ persisted (Labels node) run.1 = Labels node).
Proof.
  intros HG Hin run.
  destruct (main_writes_inv w r req node n HG Hin) as (d & Hn & _ & HA & HD & HU).
  destruct (Main.GetDeviceData w (Nautobot r) (NodeName node)) as [t x] eqn:HD'.
  cbn in HD. subst x.
  destruct (lookup_trace_facts _ _ _ _ _ _ HD') as (_ & Hl & _ & Hp & _).
  pose proof (main_run_write w r req node HG t d HA HD' HU) as Hrun.
  cbn zeta in Hrun. rewrite <- Hn in Hrun. fold run in Hrun.
  destruct (Update w n) as [uerr|]; rewrite Hrun; observe; rewrite Hl, Hp; cbn.
  - split; [discriminate|]. by intros err [= <-].
  - split; [done|]. discriminate.
Qed.

Lemma main_write_outcome_witness :
  let w := world "node2" None 200 "dc1" "r12" (Some (ApiError "conflict")) in
  (Main.Reconcile w reconciler (mkCtrlRequest "node2")).2
  = (mkResult (1 * Minute), Some (ApiError "conflict")).
Proof.
  intros w.
  refine (proj1 (proj2 (main_write_outcome w reconciler (mkCtrlRequest "node2")
                          (mkNode "node2" None)
                          (mkNode "node2" (Some (<[rackKey := "r12"]> {[zoneKey := "dc1"]})))
                          _ _) (ApiError "conflict") _)).
  - reflexivity.
  - vm_compute. apply list_elem_of_singleton. reflexivity.
  - reflexivity.
Defined.

(** X19, which errors [src/main.go] returns (lines 123-180): an invocation
    returns the error [e] exactly when fetching the node failed with [e] and
    [e] is not a not-found error, or when the update it submitted was rejected
    with [e].  A failed inventory lookup is never returned as an error. *)
Theorem main_error_iff (w : World) (r : NodeReconciler) (req : ctrlRequest) (e : error) :
  (Main.Reconcile w r req).2.2 = Some e
  <-> (Get w (ReqName req) = Fail e /\ IsNotFound e = false)
      \/ (exists n, n ∈ writes (Main.Reconcile w r req).1 /\ Update w n = Some e).
Proof.
  main_run w r req; rewrite Hrun; observe; rewrite ?Hw; cbn.
  - unfold IgnoreNotFound. split.
    + destruct (IsNotFound e0) eqn:HN; [discriminate|]. intros [= <-]. by left.
    + intros [[Hf HN] | (n & Hin & _)]; [|by apply elem_of_nil in Hin].
      rewrite HG in Hf. injection Hf as <-. by rewrite HN.
  - split; [discriminate|].
    intros [[Hf _] | (n & Hin & _)]; [congruence | by apply elem_of_nil in Hin].
  - split.
    + intros [= <-]. right. eexists. split; [by apply list_elem_of_singleton|done].
    + intros [[Hf _] | (n & Hin & Hup)]; [congruence|].
      apply list_elem_of_singleton in Hin. subst n. congruence.
  - split; [discriminate|].
    intros [[Hf _] | (n & Hin & Hup)]; [congruence|].
    apply list_elem_of_singleton in Hin. subst n. congruence.
  - split; [discriminate|].
    intros [[Hf _] | (n & Hin & _)]; [congruence | by apply elem_of_nil in Hin].
  - split; [discriminate|].
    intros [[Hf _] | (n & Hin & _)]; [congruence | by apply elem_of_nil in Hin].
Qed.

(** X20, the requeue ladder of [src/main.go] (lines 123-180): the delay an
    invocation returns is one of 0, 1 minute, 5 minutes, 1 hour, 6 hours and
    12 hours; it is 0 exactly when the node could not be fetched, and 1 minute
    exactly when the node was fetched and an error is returned. *)
Theorem main_requeue_ladder (w : World) (r : NodeReconciler) (req : ctrlRequest) :
  let res := (Main.Reconcile w r req).2 in
  RequeueAfter res.1 ∈ [0; 60000000000; 300000000000; 3600000000000;
                         21600000000000; 43200000000000]
  /\ (RequeueAfter res.1 = 0 <-> exists e, Get w (ReqName req) = Fail e)
  /\ (RequeueAfter res.1 = 60000000000
      <-> exists node e, Get w (ReqName req) = Ok node /\ res.2 = Some e).
Proof.
  cbn zeta.
  main_run w r req; rewrite Hrun; cbn [fst snd RequeueAfter];
    (split; [vm_compute; set_solver|]); split; split;
    try (intros H; vm_compute in H; discriminate);
    try (intros (? & ?); congruence);
    try (intros (? & ? & ? & ?); congruence); eauto.
Qed.

(** X21, the outcome of the plain program ([src/unnamed/part_001], lines
    115-161): it never asks for a requeue delay; it returns a nil error
    exactly when the node was not found, or the node was fetched, the lookup
    succeeded and no submitted update was rejected. *)
Theorem plain_outcome (w : World) (r : NodeReconciler) (req : ctrlRequest) :
  (Plain.Reconcile w r req).2.1 = mkResult 0
  /\ ((Plain.Reconcile w r req).2.2 = None
      <-> (exists e, Get w (ReqName req) = Fail e /\ IsNotFound e = true)
          \/ (exists node d, Get w (ReqName req) = Ok node
                /\ (Plain.GetDeviceData w (Nautobot r) (NodeName node)).2 = Ok d
                /\ forall n, n ∈ writes (Plain.Reconcile w r req).1 -> Update w n = None)).
Proof.
  plain_run w r req; rewrite Hrun; observe; rewrite ?Hw; cbn [fst snd app].
  - split; [done|]. unfold IgnoreNotFound. split.
    + destruct (IsNotFound e) eqn:HN; [|discriminate]. intros _. left. eauto.
    + intros [(e' & Hf & HN) | (node & d & Hf & _)]; [|congruence].
      rewrite HG in Hf. injection Hf as <-. by rewrite HN.
  - split; [done|]. split.
    + intros Hnone. right. exists node, d. rewrite HD. split_and!; try done.
      intros n Hin. apply list_elem_of_singleton in Hin. subst n.
      by destruct (Update w _).
    + intros [(e' & Hf & _) | (node' & d' & _ & _ & Hall)]; [congruence|].
      rewrite Hall; [done|]. by apply list_elem_of_singleton.
  - split; [done|]. split; [|done].
    intros _. right. exists node, d. rewrite HD. split_and!; try done.
    intros n Hin. by apply elem_of_nil in Hin.
  - split; [done|]. split; [discriminate|].
    intros [(e' & Hf & _) | (node' & d' & Hf & Hd & _)]; [congruence|].
    rewrite HG in Hf. injection Hf as <-. rewrite HD in Hd. discriminate.
Qed.




(** X23, running again changes nothing (both programs): when an invocation
    whose lookup returned [d] has submitted the node [n], an invocation that
    fetches [n] and whose lookup again returns [d] submits no update. *)
Theorem rerun_writes_nothing (w w' : World) (r r' : NodeReconciler) (req req' : ctrlRequest)
    (node n : Node) (d : NautobotDeviceData) :
  Get w (ReqName req) = Ok node ->
  Get w' (ReqName req') = Ok n ->
  (n ∈ writes (Main.Reconcile w r req).1
   /\ (Main.GetDeviceData w (Nautobot r) (NodeName node)).2 = Ok d
   /\ (Main.GetDeviceData w' (Nautobot r') (NodeName n)).2 = Ok d ->
   writes (Main.Reconcile w' r' req').1 = [])
  /\ (n ∈ writes (Plain.Reconcile w r req).1
      /\ (Plain.GetDeviceData w (Nautobot r) (NodeName node)).2 = Ok d
      /\ (Plain.GetDeviceData w' (Nautobot r') (NodeName n)).2 = Ok d ->
      writes (Plain.Reconcile w' r' req').1 = []).
Proof.
  intros HG HG'. split.
  - intros (Hin & HD & HD').
    destruct (main_writes_inv w r req node n HG Hin) as (d0 & Hn & _ & _ & HD0 & _).
    rewrite HD in HD0. injection HD0 as <-.
    destruct (Main.hasAllLabels n) eqn:HA.
    { by rewrite (main_run_skip w' r' req' n HG' HA). }
    destruct (main_effect w' r' req' n d HG' HA HD') as [Hw _].
    rewrite Hw. subst n. cbn [Labels]. by rewrite main_step_idem.
  - intros (Hin & HD & HD').
    destruct (plain_writes_inv w r req node n HG Hin) as (d0 & Hn & _ & HD0 & _).
    rewrite HD in HD0. injection HD0 as <-.
    destruct (plain_effect w' r' req' n d HG' HD') as [Hw _].
    rewrite Hw. subst n. cbn [Labels]. by rewrite plain_step_idem.
Qed.

Lemma rerun_writes_nothing_witness :
  let n := mkNode "node2" (Some (<[rackKey := "r12"]> (<[zoneKey := ""]> {[zoneKey := "dc1"]}))) in
  writes (Plain.Reconcile (world "node2" (Labels n) 200 "" "r12" None) reconciler
            (mkCtrlRequest "node2")).1 = [].
Proof.
  intros n.
  refine (proj2 (rerun_writes_nothing
                   (world "node2" (Some {[zoneKey := "dc1"]}) 200 "" "r12" None)
                   (world "node2" (Labels n) 200 "" "r12" None)
                   reconciler reconciler (mkCtrlRequest "node2") (mkCtrlRequest "node2")
                   (mkNode "node2" (Some {[zoneKey := "dc1"]})) n (mkDeviceData "" "r12")
                   _ _) _).
  - reflexivity.
  - reflexivity.
  - split_and!; [|reflexivity|reflexivity].
    vm_compute. apply list_elem_of_singleton. reflexivity.
Defined.

(** X24, a complete record settles the node in [src/main.go] (lines 134-175):
    on a node that is not fully labelled, a lookup that returns non-empty site
    and rack names makes the invocation submit one update, whose labels hold
    these two names; the submitted node is fully labelled, so an invocation
    that fetches it sends no inventory request, submits nothing and returns
    the twelve hour requeue. *)
Theorem main_converges (w : World) (r : NodeReconciler) (req : ctrlRequest)
    (node : Node) (d : NautobotDeviceData) :
  Get w (ReqName req) = Ok node ->
  Main.hasAllLabels node = false ->
  (Main.GetDeviceData w (Nautobot r) (NodeName node)).2 = Ok d ->
  SiteName d <> "" -> RackName d <> "" ->
  exists n, writes (Main.Reconcile w r req).1 = [n]
    /\ default ∅ (Labels n) !! zoneKey = Some (SiteName d)
    /\ default ∅ (Labels n) !! rackKey = Some (RackName d)
    /\ Main.hasAllLabels n = true
    /\ forall w' r' req', Get w' (ReqName req') = Ok n ->
         lookups (Main.Reconcile w' r' req').1 = []
         /\ writes (Main.Reconcile w' r' req').1 = []
         /\ (Main.Reconcile w' r' req').2 = (mkResult 43200000000000, None).
Proof.
  intros HG HA HD Hs Hk.
  destruct (main_effect w r req node d HG HA HD) as [Hw _].
  destruct (main_values (Labels node) d) as [Hz Hr].
  specialize (Hz Hs). specialize (Hr Hk).
  assert (HU : updated (Main.updateLabels (Labels node) d) = true).
  { destruct (updated _) eqn:HU; [done|]. exfalso.
    apply main_noop_iff in HU as [[?|Hz'] [?|Hr']]; try done.
    assert (Main.hasAllLabels node = true); [|congruence].
    apply hasAllLabels_getLabel. split; congruence. }
  rewrite HU in Hw. eexists. split; [exact Hw|]. cbn [Labels default from_option id].
  assert (Hall : Main.hasAllLabels
                   (mkNode (NodeName node) (Some (labels (Main.updateLabels (Labels node) d))))
                 = true).
  { apply hasAllLabels_getLabel. cbn [Labels default from_option id]. split; congruence. }
  split_and!; try done; try by apply getLabel_Some.
  intros w' r' req' HG'. by rewrite (main_run_skip w' r' req' _ HG' Hall).
Qed.

Lemma main_converges_witness :
  exists n, writes (Main.Reconcile (world "node2" (Some {[zoneKey := "old"]}) 200 "dc1" "r12" None)
                      reconciler (mkCtrlRequest "node2")).1 = [n]
            /\ Main.hasAllLabels n = true.
Proof.
  destruct (main_converges (world "node2" (Some {[zoneKey := "old"]}) 200 "dc1" "r12" None)
              reconciler (mkCtrlRequest "node2") (mkNode "node2" (Some {[zoneKey := "old"]}))
              (mkDeviceData "dc1" "r12")) as (n & Hw & _ & _ & Hall & _).
  - reflexivity.
  - reflexivity.
  - reflexivity.
  - discriminate.
  - discriminate.
  - exists n. split; assumption.
Defined.

(** ** The configuration *)

(** X25, the configuration read by [main] ([src/main.go], lines 209-217 and
    239-247): a variable that is set to a non-empty value is used as it is,
    an unset or empty one gives the placeholder, so the reconciler's client
    never has an empty base URL or an empty token. *)
Theorem mainReconciler_defaults (getenv : string -> string) :
  let c := Nautobot (mainReconciler getenv) in
  baseURL c <> "" /\ authToken c <> ""
  /\ (getenv "NAUTOBOT_URL" <> "" -> baseURL c = getenv "NAUTOBOT_URL")
  /\ (getenv "NAUTOBOT_URL" = "" -> baseURL c = "http://nautobot.local")
  /\ (getenv "NAUTOBOT_TOKEN" <> "" -> authToken c = getenv "NAUTOBOT_TOKEN")
  /\ (getenv "NAUTOBOT_TOKEN" = "" -> authToken c = "placeholder-token").
Proof.
  cbv zeta. unfold mainReconciler, NewNautobotClient. cbn [Nautobot baseURL authToken].
  destruct (String.eqb_spec (getenv "NAUTOBOT_URL") ""),
    (String.eqb_spec (getenv "NAUTOBOT_TOKEN") "");
    split_and!; intros; congruence || discriminate.
Qed.
